(** * Priority Flow Planner: the priority engine of [planner_db.py]

    A shallow embedding of the scoring functions of [planner_db.py]
    ([_impact_points], [_urgency_points], [_info_points],
    [_effort_penalty], [_blocked_penalty], [_label_from_score],
    [recalc_priority], [top5]) and the properties the specification
    states about them.

    Modelling conventions.
    - Python [float] values are modelled as exact rationals ([Q]); every
      constant of the source (0.0, 30.0, 40.0, 1.5, 25.0, 100.0) is a
      rational, and results are compared with [==].
    - Python [str] values are byte strings ([string]); [str.strip] and
      [str.lower] are modelled on the ASCII range.
    - A [pd.Series] row is a record whose optional keys are [option]
      fields ([None] is an absent key, read through [row.get(k, default)]).
    - [dateutil.parser.parse] and [date.today()] are external: they are the
      parameters [parse_date] and [today] of the model. Dates are day
      ordinals ([Z]).
    - [str(n)], [str.isdigit] and [int(s)], which the dependency filter
      of [recalc_priority] calls, follow the Unicode tables and the digit
      limit of the interpreter: they are the parameter [py] of the model,
      and [int(s)] and [str(n)] may raise [ValueError].
    - [list(rec)] lists a set in the order of its hash table: the order
      is the parameter [list_of_set] of the model of the webhook.
    - The exceptions the modelled code can raise on these types are the
      [ZeroDivisionError] of [days_left / days_window] and the
      [ValueError] of the dependency filter. *)

From Stdlib Require Import ZArith QArith Qminmax Lqa Ascii String List DecimalString.
From Stdlib Require Import Sorting.Sorted Permutation OrdersEx.
From stdpp Require Import base decidable option list sets gmap strings sorting.

Local Open Scope string_scope.
Local Open Scope Z_scope.
Set Warnings "-clear-no-such-hyp".

(** ** Python strings: [str.strip], [str.lower], ASCII numerals *)

Module PyStr.

(** The ASCII characters for which [str.isspace] holds: TAB, LF, VT, FF,
    CR, the separators 0x1c-0x1f and the space. *)
Definition is_space (c : ascii) : bool :=
  let n := nat_of_ascii c in
  ((9 <=? n)%nat && (n <=? 13)%nat) || ((28 <=? n)%nat && (n <=? 32)%nat).

Fixpoint lstrip (s : string) : string :=
  match s with
  | EmptyString => EmptyString
  | String c s' => if is_space c then lstrip s' else s
  end.

Fixpoint string_rev_onto (acc s : string) : string :=
  match s with
  | EmptyString => acc
  | String c s' => string_rev_onto (String c acc) s'
  end.

Definition string_rev (s : string) : string := string_rev_onto EmptyString s.

Definition rstrip (s : string) : string := string_rev (lstrip (string_rev s)).

(** [s.strip()] *)
Definition strip (s : string) : string := rstrip (lstrip s).

Definition lower_ascii (c : ascii) : ascii :=
  let n := nat_of_ascii c in
  if ((65 <=? n)%nat && (n <=? 90)%nat)%bool then ascii_of_nat (n + 32) else c.

(** [s.lower()] *)
Fixpoint lower (s : string) : string :=
  match s with
  | EmptyString => EmptyString
  | String c s' => String (lower_ascii c) (lower s')
  end.

Definition is_digit (c : ascii) : bool :=
  let n := nat_of_ascii c in ((48 <=? n)%nat && (n <=? 57)%nat)%bool.

Fixpoint all_digits (s : string) : bool :=
  match s with
  | EmptyString => true
  | String c s' => is_digit c && all_digits s'
  end.

(** A non-empty string of ASCII decimal digits, as the sample date
    parser below reads them. *)
Definition isdigit (s : string) : bool :=
  match s with
  | EmptyString => false
  | _ => all_digits s
  end.

Fixpoint int_of_digits (acc : Z) (s : string) : Z :=
  match s with
  | EmptyString => acc
  | String c s' => int_of_digits (10 * acc + (Z.of_nat (nat_of_ascii c) - 48)) s'
  end.

(** The number a string of ASCII decimal digits denotes. *)
Definition int (s : string) : Z := int_of_digits 0 s.

End PyStr.

(** ** Exceptions *)

Inductive exn : Set := ZeroDivisionError | ValueError.

Inductive result (A : Type) : Type :=
| Ok (a : A)
| Raise (e : exn).
Arguments Ok {A} a.
Arguments Raise {A} e.

#[global] Instance result_ret : MRet result := fun A a => Ok a.

#[global] Instance result_bind : MBind result := fun A B k r =>
  match r with
  | Ok a => k a
  | Raise e => Raise e
  end.

(** ** Builtins of the interpreter

    The three builtins behind [str(d).isdigit()] and [int(d)]: [str] of an
    int, which raises [ValueError] past the digit limit of the
    interpreter, [str.isdigit], and [int] of a string, which raises
    [ValueError] on a string it cannot read (a superscript two passes
    [isdigit] and fails [int]). [None] stands for the [ValueError]. *)
Record Builtins : Type := mkBuiltins {
  str_of_int : Z -> option string;
  str_isdigit : string -> bool;
  int_of_str : string -> option Z
}.

Definition is_Some_b {A} (o : option A) : bool :=
  match o with
  | Some _ => true
  | None => false
  end.

Definition or_value_error {A} (o : option A) : result A :=
  match o with
  | Some a => Ok a
  | None => Raise ValueError
  end.

(** ** Data model *)

(** An element of the JSON list [dependencies]: an integer id, or a string
    (kept by the source only when [str.isdigit] accepts it). *)
Inductive dep : Type :=
| DInt (n : Z)
| DStr (s : string).

(** A task row: a [pd.Series] built from a payload, or a row of the
    data frame returned by [fetch_tasks_df]. *)
Record Task : Type := mkTask {
  id : Z;
  title : string;
  description : string;
  status : option string;
  category : string;
  due_date : option string;
  required_info : option (list string);
  received_info : option (list string);
  business_impact : option string;
  effort : option Z;
  dependencies : option (list dep);
  priority_label : string;
  priority_score : Q;
  tags : list string
}.

(** The row [top5] returns: the seven selected columns. *)
Record Top5Row : Type := mkTop5Row {
  t5_id : Z;
  t5_title : string;
  t5_category : string;
  t5_status : option string;
  t5_priority_label : string;
  t5_priority_score : Q;
  t5_due_date : option string
}.

(** ** The scoring functions *)

(** [mapping = {"Low": 5, "Medium": 15, "High": 30, "Critical": 40}] *)
Definition mapping : gmap string Z :=
  {[ "Low" := 5; "Medium" := 15; "High" := 30; "Critical" := 40 ]}.

Definition _impact_points (impact : string) : Z :=
  default 15 (mapping !! impact).

(** [max(a, b)] and [min(a, b)] of Python on two floats: the first
    argument unless the second is strictly greater (smaller). *)
Definition py_max (a b : Q) : Q := Qmax a b.
Definition py_min (a b : Q) : Q := Qmin a b.

(** True division [a / b] of two ints: the quotient, and the exception
    when the divisor is zero. *)
Definition quot (a b : Z) : Q := (inject_Z a / inject_Z b)%Q.

Definition truediv (a b : Z) : result Q :=
  if b =? 0 then Raise ZeroDivisionError else Ok (quot a b).

(** [len(l)] as an int. *)
Definition len {A} (l : list A) : Z := Z.of_nat (length l).

(** [len(s)] of a set as an int. *)
Definition set_len (s : gset string) : Z := Z.of_nat (size s).

(** [set(f(x) for x in l)] *)
Definition set_of (f : string -> string) (l : list string) : gset string :=
  list_to_set (f <$> l).

(** [x.strip().lower()], the key of [_info_points]. *)
Definition strip_lower (x : string) : string := PyStr.lower (PyStr.strip x).

Definition _info_points (required received : list string) : Q :=
  match required with
  | [] => 0%Q
  | _ =>
      let got := set_len (set_of strip_lower received ∩ set_of strip_lower required) in
      (* the divisor [max(1, len(required))] is at least 1 *)
      let ratio := quot got (Z.max 1 (len required)) in
      (40 * ratio)%Q
  end.

Definition _effort_penalty (effort : Z) : Q :=
  let e := Z.max 1 (Z.min 8 effort) in
  (- (3 # 2) * inject_Z (e - 1))%Q.

Definition _blocked_penalty (status : string) (deps_open : bool) : Q :=
  if (status =? "Blocked")%string || deps_open then (- 25)%Q else 0%Q.

Definition _label_from_score (score : Q) : string :=
  if Qle_bool 80 score then "P1"
  else if Qle_bool 60 score then "P2"
  else if Qle_bool 40 score then "P3"
  else "P4".

(** The local [info_ratio] of [recalc_priority]; its divisor
    [len(required)] is non-zero on the branch that divides. *)
Definition info_ratio (required received : list string) : Q :=
  match required with
  | [] => 0%Q
  | _ =>
      py_min 1 (quot (set_len (set_of PyStr.lower received ∩ set_of PyStr.lower required))
                     (len required))
  end.

(** One iteration of the loop over [tasks_df.iterrows()]. *)
Definition discard_done (dep_ids open_ids : gset Z) (dep_row : Task) : gset Z :=
  if bool_decide (id dep_row ∈ dep_ids) && bool_decide (status dep_row = Some "Done")
  then open_ids ∖ {[ id dep_row ]}
  else open_ids.

(** [open_ids] after the loop, from the set [dep_ids]. *)
Definition open_ids (dep_ids : gset Z) (tasks_df : list Task) : gset Z :=
  foldl (discard_done dep_ids) dep_ids tasks_df.

(** [len(open_ids) > 0] *)
Definition any_open (dep_ids : gset Z) (tasks_df : list Task) : bool :=
  bool_decide (0 < size (open_ids dep_ids tasks_df))%nat.

(** [x in ("Done", "Blocked")] *)
Definition done_or_blocked (x : string) : bool :=
  (x =? "Done")%string || (x =? "Blocked")%string.

(** The default of the parameter [days_window]. *)
Definition default_days_window : Z := 14.

Section Engine.

(** [dateparser.parse(due).date()] as a day ordinal; [None] when the
    parser raises. *)
Variable parse_date : string -> option Z.
(** [date.today()] as a day ordinal. *)
Variable today : Z.
(** The builtins of the interpreter. *)
Variable py : Builtins.

(** The filter [str(d).isdigit() or isinstance(d, int)] of the
    comprehension that builds [dep_ids]: [str(d)] is computed first, so an
    int passes unless its [str] raises, and a string passes when
    [isdigit] accepts it. *)
Definition dep_keep (d : dep) : result bool :=
  match d with
  | DInt n => s ← or_value_error (str_of_int py n); Ok (str_isdigit py s || true)
  | DStr s => Ok (str_isdigit py s || false)
  end.

(** [int(d)] *)
Definition dep_int (d : dep) : result Z :=
  match d with
  | DInt n => Ok n
  | DStr s => or_value_error (int_of_str py s)
  end.

(** [int(d) for d in deps if str(d).isdigit() or isinstance(d, int)], in
    the order of the list; the first exception ends it. *)
Fixpoint dep_id_list (deps : list dep) : result (list Z) :=
  match deps with
  | [] => Ok []
  | d :: deps' =>
      keep ← dep_keep d;
      if keep : bool then
        n ← dep_int d;
        ns ← dep_id_list deps';
        Ok (n :: ns)
      else dep_id_list deps'
  end.

(** [dep_ids = set(...)] *)
Definition dep_ids (deps : list dep) : result (gset Z) :=
  ns ← dep_id_list deps; Ok (list_to_set ns).

(** The local [deps_open] of [recalc_priority]: [False] for an empty
    list, else computed from [dep_ids] and the loop. *)
Definition deps_open (deps : list dep) (tasks_df : list Task) : result bool :=
  match deps with
  | [] => Ok false
  | _ => ids ← dep_ids deps; Ok (any_open ids tasks_df)
  end.

Definition _urgency_points (due : option string) (days_window : Z) : result Q :=
  match due with
  | None => Ok 0%Q
  | Some "" => Ok 0%Q
  | Some due =>
      match parse_date due with
      | None => Ok 0%Q
      | Some due_dt =>
          let days_left := due_dt - today in
          if days_left <=? 0 then Ok 30%Q
          else
            q ← truediv days_left days_window;
            let score := py_max 0 (30 * (1 - q)) in
            Ok (py_min 30 score)
      end
  end.

Definition recalc_priority (row : Task) (tasks_df : list Task) (days_window : Z)
  : result (Q * string * string * bool) :=
  let required := default [] (required_info row) in
  let received := default [] (received_info row) in
  let deps := default [] (dependencies row) in
  deps_open ← deps_open deps tasks_df;
  let base := _impact_points (default "Medium" (business_impact row)) in
  urgency ← _urgency_points (due_date row) days_window;
  let info := _info_points required received in
  let effort_pen := _effort_penalty (default 3 (effort row)) in
  let blocked_pen := _blocked_penalty (default "Backlog" (status row)) deps_open in
  let score :=
    py_max 0 (py_min 100 (inject_Z base + urgency + info + effort_pen + blocked_pen)) in
  let label := _label_from_score score in
  let status0 := default "Backlog" (status row) in
  let info_ratio := info_ratio required received in
  let status1 :=
    if (status0 =? "Waiting Info")%string && Qle_bool 1 info_ratio
    then "Backlog" else status0 in
  let status2 :=
    if deps_open && negb (done_or_blocked status1) then "Blocked" else status1 in
  let escalated := (label =? "P1")%string && Qle_bool 1 info_ratio in
  mret (score, label, status2, escalated).

End Engine.

(** ** [top5] *)

(** The sort key of [sort_values(by=["priority_label","priority_score"],
    ascending=[True, False])]: labels in increasing string order, then
    scores in decreasing order. *)
Definition sort_leb (a b : Task) : bool :=
  match String_as_OT.compare (priority_label a) (priority_label b) with
  | Lt => true
  | Gt => false
  | Eq => Qle_bool (priority_score b) (priority_score a)
  end.

Definition sort_le (a b : Task) : Prop := sort_leb a b = true.

#[global] Instance sort_le_dec a b : Decision (sort_le a b).
Proof. unfold sort_le. apply _. Defined.

(** [df.sort_values(...)]: the rows in the order of the two keys. Rows
    that tie on both keys come in an order no property below depends on. *)
Definition sort_values (df : list Task) : list Task := merge_sort sort_le df.

(** [df[["id","title","category","status","priority_label",
    "priority_score","due_date"]]] on one row. *)
Definition select_columns (r : Task) : Top5Row :=
  {| t5_id := id r;
     t5_title := title r;
     t5_category := category r;
     t5_status := status r;
     t5_priority_label := priority_label r;
     t5_priority_score := priority_score r;
     t5_due_date := due_date r |}.

(** [top5]: an empty frame is returned as it is (no rows); otherwise the
    frame is sorted, cut to its first five rows and projected. *)
Definition top5 (df : list Task) : list Top5Row :=
  match df with
  | [] => []
  | _ => select_columns <$> take 5 (sort_values df)
  end.

(** ** A sample date parser

    [dateutil] is not part of the repository; to run the model on the
    ISO [YYYY-MM-DD] strings the [due_date] column holds, [IsoDate.parse]
    reads that one format and returns the proleptic Gregorian ordinal
    ([date.toordinal]). *)

Module IsoDate.

Definition is_leap (y : Z) : bool :=
  (y mod 4 =? 0) && (negb (y mod 100 =? 0) || (y mod 400 =? 0)).

Definition days_in_month (y m : Z) : Z :=
  if m =? 2 then (if is_leap y then 29 else 28)
  else if (m =? 4) || (m =? 6) || (m =? 9) || (m =? 11) then 30
  else 31.

Definition days_before_year (y : Z) : Z :=
  let p := y - 1 in p * 365 + p / 4 - p / 100 + p / 400.

Definition days_before_month (y m : Z) : Z :=
  fold_right Z.add 0
    (days_in_month y <$> List.filter (fun k => k <? m) [1;2;3;4;5;6;7;8;9;10;11;12]).

Definition ordinal (y m d : Z) : Z :=
  days_before_year y + days_before_month y m + d.

Definition parse (s : string) : option Z :=
  match s with
  | String y1 (String y2 (String y3 (String y4 (String "-"
      (String m1 (String m2 (String "-" (String d1 (String d2 EmptyString))))))))) =>
      let ys := String y1 (String y2 (String y3 (String y4 EmptyString))) in
      let ms := String m1 (String m2 EmptyString) in
      let ds := String d1 (String d2 EmptyString) in
      if PyStr.isdigit ys && PyStr.isdigit ms && PyStr.isdigit ds then
        let y := PyStr.int ys in
        let m := PyStr.int ms in
        let d := PyStr.int ds in
        if (1 <=? y) && (1 <=? m) && (m <=? 12) && (1 <=? d) && (d <=? days_in_month y m)
        then Some (ordinal y m d) else None
      else None
  | _ => None
  end.

End IsoDate.

(** ** Sample builtins

    To run the model, [PySample] reads the builtins on the strings the
    examples use: the ASCII digits, the Arabic-Indic digits U+0660 to
    U+0669 (decimal digits of value 0 to 9) and the superscripts U+00B2,
    U+00B3 and U+00B9 (digits for [str.isdigit], not decimal: [int]
    raises), all in UTF-8, with the limit of 4300 digits on conversions. *)

Module PySample.

Inductive digit_class : Type :=
| Decimal (v : Z)
| OtherDigit.

Fixpoint classify (s : string) : option (list digit_class) :=
  match s with
  | EmptyString => Some []
  | String c s' =>
      let n := Z.of_nat (nat_of_ascii c) in
      if (48 <=? n) && (n <=? 57) then cons (Decimal (n - 48)) <$> classify s'
      else
        match s' with
        | String c2 s'' =>
            let m := Z.of_nat (nat_of_ascii c2) in
            if (n =? 194) && ((m =? 178) || (m =? 179) || (m =? 185))
            then cons OtherDigit <$> classify s''
            else if (n =? 217) && (160 <=? m) && (m <=? 169)
            then cons (Decimal (m - 160)) <$> classify s''
            else None
        | EmptyString => None
        end
  end.

Definition isdigit (s : string) : bool :=
  match classify s with
  | Some (_ :: _) => true
  | _ => false
  end.

Fixpoint value (acc : Z) (l : list digit_class) : option Z :=
  match l with
  | [] => Some acc
  | Decimal v :: l' => value (10 * acc + v) l'
  | OtherDigit :: _ => None
  end.

Definition max_str_digits : nat := 4300.

(** [int(s)] on the strings [isdigit] accepts; the model asks about no
    other string. *)
Definition int (s : string) : option Z :=
  match classify s with
  | Some (d :: l) =>
      if (length (d :: l) <=? max_str_digits)%nat then value 0 (d :: l) else None
  | _ => None
  end.

(** [str(n)] *)
Definition str (n : Z) : option string :=
  let digits := NilZero.string_of_int (Z.to_int (Z.abs n)) in
  if (String.length digits <=? max_str_digits)%nat
  then Some (NilZero.string_of_int (Z.to_int n)) else None.

(** A sample order for [list(rec)], where [rec] is [set(l)] after
    [rec.add(item)]: the entries from the last inserted to the first. As
    with the hash order of CPython, the list it gives for a set depends
    on how the set was built. *)
Definition list_of_set (l : list string) (item : string) : list string :=
  remove_dups (reverse (l ++ [item])%list).

Definition builtins : Builtins :=
  {| str_of_int := str; str_isdigit := isdigit; int_of_str := int |}.

End PySample.

(** ** Vocabulary of the specification *)

(** A dependency id is open when no row of [tasks_df] with that id has
    status Done. *)
Definition open_dep (tasks_df : list Task) (d : Z) : Prop :=
  forall r, r ∈ tasks_df -> id r = d -> status r <> Some "Done".

(** A dependency entry the filter of [recalc_priority] raises on: an int
    whose [str] raises, or a string that [str.isdigit] accepts and [int]
    cannot read. *)
Definition unreadable (py : Builtins) (d : dep) : bool :=
  match d with
  | DInt n => negb (is_Some_b (str_of_int py n))
  | DStr s => str_isdigit py s && negb (is_Some_b (int_of_str py s))
  end.

(** A dependency entry the filter drops: a string that [str.isdigit]
    rejects. *)
Definition dropped (py : Builtins) (d : dep) : bool :=
  match d with
  | DInt _ => false
  | DStr s => negb (str_isdigit py s)
  end.

(** [received] is a superset of [required] once both are trimmed and
    lower-cased. *)
Definition covers (required received : list string) : Prop :=
  forall x, x ∈ required -> strip_lower x ∈ strip_lower <$> received.

#[global] Instance covers_dec required received : Decision (covers required received).
Proof.
  refine (cast_if (decide (Forall (fun x => strip_lower x ∈ strip_lower <$> received) required)));
    unfold covers; rewrite <- Forall_forall; assumption.
Defined.

(** The order the specification gives for the Top-N list: the label
    ascending, and among equal labels the score descending. *)
Definition ranked_before (a b : Task) : Prop :=
  String_as_OT.lt (priority_label a) (priority_label b) \/
  (priority_label a = priority_label b /\ (priority_score b <= priority_score a)%Q).

(** Two rows that agree on every field the engine is specified to read. *)
Definition same_inputs (r1 r2 : Task) : Prop :=
  status r1 = status r2 /\ due_date r1 = due_date r2 /\
  required_info r1 = required_info r2 /\ received_info r1 = received_info r2 /\
  business_impact r1 = business_impact r2 /\ effort r1 = effort r2 /\
  dependencies r1 = dependencies r2.

(** Two task collections whose rows agree, one by one, on id and status. *)
Definition same_id_status (t1 t2 : list Task) : Prop :=
  Forall2 (fun a b => id a = id b /\ status a = status b) t1 t2.

(** The step function of the specification, as a relation between a
    score and a label. *)
Definition label_steps (score : Q) (label : string) : Prop :=
  ((80 <= score)%Q -> label = "P1") /\
  ((60 <= score < 80)%Q -> label = "P2") /\
  ((40 <= score < 60)%Q -> label = "P3") /\
  ((score < 40)%Q -> label = "P4").

(** ** Sample tasks *)

Module Sample.

(** 2026-11-03 as an ordinal. *)
Definition today : Z := 739923.

Definition py : Builtins := PySample.builtins.

Definition task (i : Z) (name : string) (st : string) (due : option string)
    (required received : list string) (impact : string) (eff : Z)
    (deps : list dep) : Task :=
  {| id := i; title := name; description := ""; status := Some st;
     category := "Trabajo"; due_date := due;
     required_info := Some required; received_info := Some received;
     business_impact := Some impact; effort := Some eff;
     dependencies := Some deps;
     priority_label := "P4"; priority_score := 0; tags := [] |}.

(** The worked examples of the specification. *)
Definition half_ready : Task :=
  task (-1) "report" "Backlog" (Some "2026-11-03") ["x"; "y"] ["x"] "Critical" 3 [].
Definition fully_ready : Task :=
  task (-1) "report" "Backlog" (Some "2026-11-03") ["x"; "y"] ["x"; "y"] "Critical" 3 [].

(** A waiting task that requires no information. *)
Definition waiting_no_info : Task :=
  task 1 "call" "Waiting Info" None [] [] "Medium" 3 [].

(** A waiting task whose one item was received with a leading blank. *)
Definition waiting_blank : Task :=
  task 2 "quote" "Waiting Info" (Some "2026-11-03") ["x"] [" x"] "Critical" 1 [].

(** A task that depends on task 7. *)
Definition gated : Task :=
  task 3 "deploy" "In Progress" None [] [] "High" 2 [DInt 7].
Definition finished : Task :=
  task 4 "archive" "Done" None [] [] "Low" 1 [DInt 7].
Definition dep_not_done : Task :=
  task 7 "build" "In Progress" None [] [] "High" 2 [].
(** Another row with the id and the status of [dep_not_done]. *)
Definition dep_not_done_edited : Task :=
  task 7 "build all" "In Progress" (Some "2027-01-01") ["q"] [] "Low" 5 [DInt 1].

(** A task whose one dependency entry is the string of a superscript
    two (U+00B2). *)
Definition superscript_dep : Task :=
  task 5 "fix" "Backlog" None [] [] "Medium" 3 [DStr "²"].

(** A row built from a partial payload: no due date, an effort out of
    range, no information lists, a dependency on a missing task. *)
Definition partial : Task :=
  {| id := -1; title := "p"; description := ""; status := None;
     category := "Trabajo"; due_date := Some "soon";
     required_info := None; received_info := None;
     business_impact := Some "Huge"; effort := Some 100;
     dependencies := Some [DInt 99];
     priority_label := "P4"; priority_score := 0; tags := [] |}.

(** Rows with a stored label and score, for [top5]. *)
Definition scored (i : Z) (lbl : string) (sc : Q) : Task :=
  {| id := i; title := "t"; description := ""; status := Some "Backlog";
     category := "Trabajo"; due_date := None;
     required_info := Some []; received_info := Some [];
     business_impact := Some "Medium"; effort := Some 3;
     dependencies := Some [];
     priority_label := lbl; priority_score := sc; tags := [] |}.

(** The same task as [half_ready] under another id, title, description,
    category and tags. *)
Definition half_ready_renamed : Task :=
  {| id := 12; title := "other"; description := "text"; status := Some "Backlog";
     category := "Escuela"; due_date := Some "2026-11-03";
     required_info := Some ["x"; "y"]; received_info := Some ["x"];
     business_impact := Some "Critical"; effort := Some 3;
     dependencies := Some [];
     priority_label := "P1"; priority_score := 50; tags := ["a"] |}.

End Sample.

(** ** The callers of the engine

    Every caller builds a row, scores it and writes the score, the label
    and the status back into the row it persists ([build_task] and the
    webhook of [fastapi_app.py], the form of [priority_flow_planner.py]).
    The row updates below are the assignments [r[k] = v] they perform. *)

(** [r["status"] = st] *)
Definition set_status (st : option string) (r : Task) : Task :=
  mkTask
    (id r) (title r) (description r) (st) (category r) (due_date r)
    (required_info r) (received_info r) (business_impact r) (effort r)
    (dependencies r) (priority_label r) (priority_score r) (tags r).

(** [r["received_info"] = l] *)
Definition set_received_info (l : list string) (r : Task) : Task :=
  mkTask
    (id r) (title r) (description r) (status r) (category r) (due_date r)
    (required_info r) (Some l) (business_impact r) (effort r) (dependencies r)
    (priority_label r) (priority_score r) (tags r).

(** [r["business_impact"] = i] *)
Definition set_business_impact (i : string) (r : Task) : Task :=
  mkTask
    (id r) (title r) (description r) (status r) (category r) (due_date r)
    (required_info r) (received_info r) (Some i) (effort r) (dependencies r)
    (priority_label r) (priority_score r) (tags r).

(** [r["effort"] = e] *)
Definition set_effort (e : Z) (r : Task) : Task :=
  mkTask
    (id r) (title r) (description r) (status r) (category r) (due_date r)
    (required_info r) (received_info r) (business_impact r) (Some e)
    (dependencies r) (priority_label r) (priority_score r) (tags r).

(** [{**r, "id": i, "dependencies": deps}] *)
Definition set_id_dependencies (i : Z) (deps : list dep) (r : Task) : Task :=
  mkTask
    (i) (title r) (description r) (status r) (category r) (due_date r)
    (required_info r) (received_info r) (business_impact r) (effort r)
    (Some deps) (priority_label r) (priority_score r) (tags r).

(** [r["priority_score"] = score; r["priority_label"] = label] *)
Definition set_priority (score : Q) (label : string) (r : Task) : Task :=
  mkTask
    (id r) (title r) (description r) (status r) (category r) (due_date r)
    (required_info r) (received_info r) (business_impact r) (effort r)
    (dependencies r) (label) (score) (tags r).

(** The write-back of a returned tuple:
    [r["priority_score"], r["priority_label"], r["status"] = score, label, status]. *)
Definition write_back (r : Task) (out : Q * string * string * bool) : Task :=
  let '(score, label, st, _) := out in
  set_status (Some st) (set_priority score label r).

Section Callers.

Variable parse_date : string -> option Z.
Variable today : Z.
Variable py : Builtins.

(** [build_task] of [fastapi_app.py]. The payload is a row whose [id] and
    [dependencies] are replaced for scoring; [df] is what
    [fetch_tasks_df()] returns. The [setdefault] calls on
    [priority_label] and [priority_score] are overwritten by the
    write-back, so only the one on [status] shows. *)
Definition build_task (df : list Task) (payload : Task) : result Task :=
  let payload := set_status (Some (default "Backlog" (status payload))) payload in
  let s := set_id_dependencies (-1) [] payload in
  out ← recalc_priority parse_date today py s df default_days_window;
  mret (write_back payload out).

End Callers.

(** Every required item has been received, as [info_ratio] counts it:
    the required list is non-empty, its lower-cased entries are pairwise
    distinct and each of them is a lower-cased received entry. *)
Definition all_received (required received : list string) : Prop :=
  required <> [] /\ NoDup (PyStr.lower <$> required) /\
  forall x, x ∈ required -> PyStr.lower x ∈ PyStr.lower <$> received.

#[global] Instance all_received_dec required received :
  Decision (all_received required received).
Proof.
  refine (cast_if (decide (required <> [] /\ NoDup (PyStr.lower <$> required) /\
                           Forall (fun x => PyStr.lower x ∈ PyStr.lower <$> received)
                                  required)));
    unfold all_received; rewrite <- Forall_forall; assumption.
Defined.

(** A dependency id is closed when some row of [tasks_df] with that id
    has status Done. *)
Definition closed_dep (tasks_df : list Task) (d : Z) : Prop :=
  exists r, r ∈ tasks_df /\ id r = d /\ status r = Some "Done".

(** The label [a] is at least as good as the label [b]. *)
Definition label_le (a b : string) : Prop := String_as_OT.lt a b \/ a = b.

(** The tail of [recalc_priority], from the sum of the five terms to
    the returned tuple, as a function of the values computed before it.
    It is used to compare two runs of the engine. *)
Definition assemble (base : Z) (urgency info effort_pen : Q) (status0 : string)
    (ratio : Q) (open : bool) : Q * string * string * bool :=
  let blocked_pen := _blocked_penalty status0 open in
  let score :=
    py_max 0 (py_min 100 (inject_Z base + urgency + info + effort_pen + blocked_pen)) in
  let label := _label_from_score score in
  let status1 :=
    if (status0 =? "Waiting Info")%string && Qle_bool 1 ratio
    then "Backlog" else status0 in
  let status2 :=
    if open && negb (done_or_blocked status1) then "Blocked" else status1 in
  let escalated := (label =? "P1")%string && Qle_bool 1 ratio in
  (score, label, status2, escalated).

(** The score of [a] is at least the score of [b]. *)
Definition score_ge (a b : Task) : Prop := (priority_score b <= priority_score a)%Q.

(** The stored label of a row is the label of its stored score, as after
    any write-back. *)
Definition consistent (r : Task) : Prop :=
  priority_label r = _label_from_score (priority_score r).

(** ** The received-information command of the webhook

    The block of [whatsapp_webhook] in [fastapi_app.py] that handles
    "recibi: <item> para <id>", after the text of the command is parsed. *)

(** [df[df["id"]==task_id]] and its first row; [None] when the selection
    is empty. *)
Definition find_task (df : list Task) (task_id : Z) : option Task :=
  head (List.filter (fun r => id r =? task_id) df).

(** [order l item] lists, each once, the elements of the set built by
    [rec = set(l); rec.add(item)]. This is all that [list(rec)] promises:
    the order of the list is that of the hash table. *)
Definition enumerates (order : list string -> string -> list string) : Prop :=
  forall l item,
    NoDup (order l item) /\
    forall x, x ∈ order l item <-> x ∈ (list_to_set l ∪ {[ item ]} : gset string).

Section Webhook.

Variable parse_date : string -> option Z.
Variable today : Z.
Variable py : Builtins.

(** [list(rec)] for the set [rec] built from the list [l] and the added
    [item]. *)
Variable list_of_set : list string -> string -> list string.

(** [rec = set(r.get("received_info",[])); rec.add(item);
    r["received_info"] = list(rec)], then the scoring and the write-back. *)
Definition register_received (df : list Task) (item : string) (r : Task) : result Task :=
  let r := set_received_info (list_of_set (default [] (received_info r)) item) r in
  out ← recalc_priority parse_date today py r df default_days_window;
  mret (write_back r out).

(** The command on a task id: [None] is the answer that the task was not
    found. *)
Definition received_command (df : list Task) (item : string) (task_id : Z)
  : option (result Task) :=
  match find_task df task_id with
  | None => None
  | Some r => Some (register_received df item r)
  end.

End Webhook.

(** ** Comma-separated fields

    The form of [priority_flow_planner.py] shows a list as
    [",".join(l)] and reads it back with
    [[x.strip() for x in v.split(",") if x.strip()]], the idiom the
    command parsers of [fastapi_app.py] use as well. *)

(** [s.split(sep)] for a one-character separator. *)
Fixpoint split (sep : ascii) (s : string) : list string :=
  match s with
  | EmptyString => [EmptyString]
  | String c s' =>
      if Ascii.eqb c sep then EmptyString :: split sep s'
      else match split sep s' with
           | x :: xs => String c x :: xs
           | [] => [String c EmptyString]
           end
  end.

(** [sep.join(l)] *)
Fixpoint join (sep : ascii) (l : list string) : string :=
  match l with
  | [] => EmptyString
  | x :: l' =>
      match l' with
      | [] => x
      | _ => (x ++ String sep (join sep l'))%string
      end
  end.

Definition comma : ascii := ","%char.

(** [[x.strip() for x in v.split(",") if x.strip()]] *)
Definition comma_list (v : string) : list string :=
  PyStr.strip <$> List.filter (fun x => negb (PyStr.strip x =? "")%string) (split comma v).

(** The character [c] occurs in [s]. *)
Fixpoint occurs (c : ascii) (s : string) : bool :=
  match s with
  | EmptyString => false
  | String c' s' => Ascii.eqb c' c || occurs c s'
  end.

(** * Properties *)

(** ** Arithmetic of the five terms *)

Lemma py_max_case (a b : Q) :
  (b <= a /\ py_max a b == a)%Q \/ (a <= b /\ py_max a b == b)%Q.
Proof.
  unfold py_max. destruct (Q.max_spec a b) as [[H1 H2]|[H1 H2]].
  - right. split; [lra | exact H2].
  - left. split; [exact H1 | exact H2].
Qed.

Lemma py_min_case (a b : Q) :
  (a <= b /\ py_min a b == a)%Q \/ (b <= a /\ py_min a b == b)%Q.
Proof.
  unfold py_min. destruct (Q.min_spec a b) as [[H1 H2]|[H1 H2]].
  - left. split; [lra | exact H2].
  - right. split; [exact H1 | exact H2].
Qed.

(** [max(lo, min(hi, x))] lies between its bounds. *)
Lemma clamp_bounds (lo hi x : Q) :
  (lo <= hi -> lo <= py_max lo (py_min hi x) <= hi)%Q.
Proof.
  intros Hlh.
  destruct (py_max_case lo (py_min hi x)) as [[H1 H2]|[H1 H2]];
    destruct (py_min_case hi x) as [[H3 H4]|[H3 H4]]; lra.
Qed.

Lemma quot_nonneg (a b : Z) : 0 <= a -> 0 < b -> (0 <= quot a b)%Q.
Proof.
  intros Ha Hb. unfold quot. apply Qle_shift_div_l.
  - replace 0%Q with (inject_Z 0) by reflexivity. rewrite <- Zlt_Qlt. exact Hb.
  - rewrite Qmult_0_l. replace 0%Q with (inject_Z 0) by reflexivity.
    rewrite <- Zle_Qle. exact Ha.
Qed.

Lemma quot_le_1 (a b : Z) : a <= b -> 0 < b -> (quot a b <= 1)%Q.
Proof.
  intros Hab Hb. unfold quot. apply Qle_shift_div_r.
  - replace 0%Q with (inject_Z 0) by reflexivity. rewrite <- Zlt_Qlt. exact Hb.
  - rewrite Qmult_1_l. rewrite <- Zle_Qle. exact Hab.
Qed.

Lemma quot_ge_1 (a b : Z) : b <= a -> 0 < b -> (1 <= quot a b)%Q.
Proof.
  intros Hab Hb. unfold quot. apply Qle_shift_div_l.
  - replace 0%Q with (inject_Z 0) by reflexivity. rewrite <- Zlt_Qlt. exact Hb.
  - rewrite Qmult_1_l. rewrite <- Zle_Qle. exact Hab.
Qed.

Lemma quot_same (a : Z) : a <> 0 -> (quot a a == 1)%Q.
Proof.
  intros Ha. unfold quot. field. intros H.
  apply Ha. apply (inject_Z_injective a 0). exact H.
Qed.

Lemma quot_mono (a a' b : Z) : a <= a' -> 0 < b -> (quot a b <= quot a' b)%Q.
Proof.
  intros Haa Hb. unfold quot, Qdiv. apply Qmult_le_compat_r.
  - rewrite <- Zle_Qle. exact Haa.
  - apply Qlt_le_weak, Qinv_lt_0_compat.
    replace 0%Q with (inject_Z 0) by reflexivity. rewrite <- Zlt_Qlt. exact Hb.
Qed.

Lemma _impact_points_cases (impact : string) :
  _impact_points impact = 5 \/ _impact_points impact = 15 \/
  _impact_points impact = 30 \/ _impact_points impact = 40.
Proof.
  unfold _impact_points, mapping.
  destruct (decide (impact = "Low")) as [->|H1]; [left; reflexivity|].
  destruct (decide (impact = "Medium")) as [->|H2]; [right; left; reflexivity|].
  destruct (decide (impact = "High")) as [->|H3]; [right; right; left; reflexivity|].
  destruct (decide (impact = "Critical")) as [->|H4]; [right; right; right; reflexivity|].
  right; left.
  rewrite !lookup_insert_ne by congruence.
  rewrite lookup_singleton_ne by congruence. reflexivity.
Qed.

Lemma _impact_points_bounds (impact : string) : 5 <= _impact_points impact <= 40.
Proof. destruct (_impact_points_cases impact) as [H|[H|[H|H]]]; rewrite H; lia. Qed.

Lemma _effort_penalty_bounds (effort : Z) :
  (- (21 # 2) <= _effort_penalty effort <= 0)%Q.
Proof.
  unfold _effort_penalty.
  set (e := Z.max 1 (Z.min 8 effort)).
  assert (He : 1 <= e <= 8) by (subst e; lia).
  assert (H0 : (inject_Z 0 <= inject_Z (e - 1))%Q) by (rewrite <- Zle_Qle; lia).
  assert (H7 : (inject_Z (e - 1) <= inject_Z 7)%Q) by (rewrite <- Zle_Qle; lia).
  change (inject_Z 0) with 0%Q in H0. change (inject_Z 7) with 7%Q in H7.
  lra.
Qed.

Lemma _blocked_penalty_bounds (status : string) (b : bool) :
  (- 25 <= _blocked_penalty status b <= 0)%Q.
Proof. unfold _blocked_penalty. destruct (_ || _); lra. Qed.

(** ** Sets of normalised labels *)

Lemma size_set_of_le (f : string -> string) (l : list string) :
  (size (set_of f l) <= length l)%nat.
Proof.
  unfold set_of. induction l as [|x l IH].
  - change (size (∅ : gset string) <= 0)%nat. rewrite size_empty. lia.
  - rewrite fmap_cons, list_to_set_cons, size_union_alt, size_singleton. simpl.
    assert (size (list_to_set (f <$> l) ∖ ({[f x]} : gset string))
            <= size (list_to_set (f <$> l) : gset string))%nat
      by (apply subseteq_size; set_solver).
    lia.
Qed.

Lemma size_set_of_NoDup (f : string -> string) (l : list string) :
  NoDup (f <$> l) -> size (set_of f l) = length l.
Proof.
  intros H. unfold set_of. rewrite size_list_to_set by exact H.
  apply length_fmap.
Qed.

Lemma got_le_len (f : string -> string) (received required : list string) :
  0 <= set_len (set_of f received ∩ set_of f required) <= len required.
Proof.
  unfold set_len, len. split; [lia|].
  apply Nat2Z.inj_le.
  etransitivity; [|apply (size_set_of_le f required)].
  apply subseteq_size. set_solver.
Qed.

Lemma _info_points_bounds (required received : list string) :
  (0 <= _info_points required received <= 40)%Q.
Proof.
  unfold _info_points. destruct required as [|x required]; [lra|].
  set (req := x :: required).
  pose proof (got_le_len strip_lower received req) as [Hg Hl].
  assert (Hpos : 0 < len req) by (unfold len, req; simpl; lia).
  assert (Hmax : Z.max 1 (len req) = len req) by lia.
  rewrite Hmax.
  pose proof (quot_nonneg _ _ Hg Hpos). pose proof (quot_le_1 _ _ Hl Hpos). lra.
Qed.

Lemma info_ratio_bounds (required received : list string) :
  (0 <= info_ratio required received <= 1)%Q.
Proof.
  unfold info_ratio. destruct required as [|x required]; [lra|].
  set (req := x :: required).
  pose proof (got_le_len PyStr.lower received req) as [Hg Hl].
  assert (Hpos : 0 < len req) by (unfold len, req; simpl; lia).
  pose proof (quot_nonneg _ _ Hg Hpos). pose proof (quot_le_1 _ _ Hl Hpos).
  destruct (py_min_case 1
              (quot (set_len (set_of PyStr.lower received ∩ set_of PyStr.lower req))
                    (len req)))
    as [[H1 H2]|[H1 H2]]; lra.
Qed.

Lemma info_ratio_nil (received : list string) : info_ratio [] received = 0%Q.
Proof. reflexivity. Qed.

Lemma _info_points_nil (received : list string) : _info_points [] received = 0%Q.
Proof. reflexivity. Qed.

(** ** Urgency *)

Section UrgencyFacts.

Variable parse_date : string -> option Z.
Variable today : Z.

(** The clamped ramp computed on the last two lines of
    [_urgency_points]. *)
Lemma ramp_bounds (q : Q) : (0 <= py_min 30 (py_max 0 (30 * (1 - q))) <= 30)%Q.
Proof.
  destruct (py_min_case 30 (py_max 0 (30 * (1 - q)))) as [[H1 H2]|[H1 H2]];
    destruct (py_max_case 0 (30 * (1 - q))) as [[H3 H4]|[H3 H4]]; lra.
Qed.

Lemma _urgency_points_parsed (s : string) (due_dt days_window : Z) :
  s <> "" -> parse_date s = Some due_dt ->
  _urgency_points parse_date today (Some s) days_window =
    if due_dt - today <=? 0 then Ok 30%Q
    else q ← truediv (due_dt - today) days_window;
         Ok (py_min 30 (py_max 0 (30 * (1 - q)))).
Proof.
  intros Hs Hp. unfold _urgency_points.
  destruct s as [|c s]; [congruence|]. rewrite Hp. reflexivity.
Qed.

Lemma _urgency_points_unparsed (s : string) (days_window : Z) :
  parse_date s = None ->
  _urgency_points parse_date today (Some s) days_window = Ok 0%Q.
Proof.
  intros Hp. unfold _urgency_points.
  destruct s as [|c s]; [reflexivity|]. rewrite Hp. reflexivity.
Qed.

Lemma _urgency_points_returns (due : option string) (days_window : Z) :
  days_window <> 0 ->
  exists u, _urgency_points parse_date today due days_window = Ok u.
Proof.
  intros Hw. destruct due as [s|]; [|eexists; reflexivity].
  destruct (parse_date s) as [d|] eqn:Hp.
  - destruct (decide (s = "")) as [->|Hs]; [eexists; reflexivity|].
    rewrite (_urgency_points_parsed s d days_window Hs Hp).
    destruct (d - today <=? 0); [eexists; reflexivity|].
    unfold truediv. destruct (Z.eqb_spec days_window 0) as [->|_]; [congruence|].
    eexists. reflexivity.
  - rewrite (_urgency_points_unparsed s days_window Hp). eexists; reflexivity.
Qed.

Lemma _urgency_points_bounds (due : option string) (days_window : Z) (u : Q) :
  _urgency_points parse_date today due days_window = Ok u -> (0 <= u <= 30)%Q.
Proof.
  destruct due as [s|]; [|intros [= <-]; lra].
  destruct (parse_date s) as [d|] eqn:Hp.
  - destruct (decide (s = "")) as [->|Hs]; [intros [= <-]; lra|].
    rewrite (_urgency_points_parsed s d days_window Hs Hp).
    destruct (d - today <=? 0); [intros [= <-]; lra|].
    unfold truediv. destruct (days_window =? 0); [discriminate|].
    intros [= <-]. apply ramp_bounds.
  - rewrite (_urgency_points_unparsed s days_window Hp). intros [= <-]; lra.
Qed.

End UrgencyFacts.

(** ** Open dependencies *)

(** The ids the loop removes from [open_ids]: those of the rows of
    [tasks_df] that are in [dep_ids] and have status Done. *)
Lemma elem_of_foldl_discard_done (ids acc : gset Z) (tasks_df : list Task) (d : Z) :
  d ∈ foldl (discard_done ids) acc tasks_df <->
  d ∈ acc /\ ~ (d ∈ ids /\ exists r, r ∈ tasks_df /\ id r = d /\ status r = Some "Done").
Proof.
  revert acc. induction tasks_df as [|r tasks_df IH]; intros acc; simpl.
  - set_solver.
  - rewrite IH. unfold discard_done.
    destruct (bool_decide (id r ∈ ids)) eqn:E1;
      destruct (bool_decide (status r = Some "Done")) eqn:E2; simpl;
      [apply bool_decide_eq_true in E1; apply bool_decide_eq_true in E2
      |apply bool_decide_eq_false in E2
      |apply bool_decide_eq_false in E1
      |apply bool_decide_eq_false in E1];
      set_unfold; naive_solver.
Qed.

Lemma elem_of_open_ids (ids : gset Z) (tasks_df : list Task) (d : Z) :
  d ∈ open_ids ids tasks_df <-> d ∈ ids /\ open_dep tasks_df d.
Proof.
  unfold open_ids, open_dep. rewrite elem_of_foldl_discard_done. naive_solver.
Qed.

Lemma any_open_true (ids : gset Z) (tasks_df : list Task) :
  any_open ids tasks_df = true <-> exists d, d ∈ ids /\ open_dep tasks_df d.
Proof.
  unfold any_open. rewrite bool_decide_eq_true. split.
  - intros H. apply size_pos_elem_of in H as [d Hd]. exists d.
    apply elem_of_open_ids. exact Hd.
  - intros (d & Hd). apply elem_of_open_ids in Hd.
    destruct (decide (size (open_ids ids tasks_df) = 0%nat)) as [Hz|Hz]; [|lia].
    apply size_empty_iff in Hz. set_solver.
Qed.

Lemma any_open_empty (tasks_df : list Task) : any_open ∅ tasks_df = false.
Proof.
  apply not_true_iff_false. rewrite any_open_true. intros (d & Hd & _). set_solver.
Qed.

Lemma dep_ids_nil (py : Builtins) : dep_ids py [] = Ok ∅.
Proof. reflexivity. Qed.

(** [deps_open] through [dep_ids], the empty list included. *)
Lemma deps_open_dep_ids (py : Builtins) (deps : list dep) (tasks_df : list Task) :
  deps_open py deps tasks_df = (ids ← dep_ids py deps; Ok (any_open ids tasks_df)).
Proof.
  destruct deps as [|d deps]; [|reflexivity].
  cbn [deps_open]. rewrite dep_ids_nil. cbn [mbind result_bind].
  rewrite any_open_empty. reflexivity.
Qed.

Lemma deps_open_Ok (py : Builtins) (deps : list dep) (tasks_df : list Task) (b : bool) :
  deps_open py deps tasks_df = Ok b <->
  exists ids, dep_ids py deps = Ok ids /\ b = any_open ids tasks_df.
Proof.
  rewrite deps_open_dep_ids. destruct (dep_ids py deps) as [ids|x]; cbn [mbind result_bind].
  - split.
    + intros H. exists ids. split; [reflexivity|]. injection H as <-. reflexivity.
    + intros (ids' & H & ->). injection H as <-. reflexivity.
  - split; [discriminate|]. intros (ids' & H & _). discriminate.
Qed.

Lemma deps_open_of_ids (py : Builtins) (deps : list dep) (tasks_df : list Task)
    (ids : gset Z) :
  dep_ids py deps = Ok ids -> deps_open py deps tasks_df = Ok (any_open ids tasks_df).
Proof. intros H. apply deps_open_Ok. exists ids. split; [exact H|reflexivity]. Qed.

(** The comprehension of the dependency filter either returns, and then
    no entry is unreadable, or raises [ValueError], and then one is. *)
Lemma dep_id_list_cases (py : Builtins) (deps : list dep) :
  ((exists ns, dep_id_list py deps = Ok ns) /\
   forall d, d ∈ deps -> unreadable py d = false) \/
  (dep_id_list py deps = Raise ValueError /\
   exists d, d ∈ deps /\ unreadable py d = true).
Proof.
  induction deps as [|d deps IH].
  - left. split; [exists []; reflexivity|]. intros d Hd. inversion Hd.
  - assert (Hhere : unreadable py d = true ->
              dep_id_list py (d :: deps) = Raise ValueError).
    { cbn [dep_id_list]. destruct d as [n|s]; cbn [unreadable dep_keep dep_int].
      - destruct (str_of_int py n); [discriminate|]. reflexivity.
      - destruct (str_isdigit py s); [|discriminate].
        destruct (int_of_str py s); [discriminate|]. reflexivity. }
    assert (Hnext : unreadable py d = false ->
              dep_id_list py (d :: deps) = dep_id_list py deps \/
              exists n, dep_id_list py (d :: deps)
                        = (ns ← dep_id_list py deps; Ok (n :: ns))).
    { cbn [dep_id_list]. destruct d as [n|s]; cbn [unreadable dep_keep dep_int].
      - destruct (str_of_int py n) as [s|]; [|discriminate]. intros _. right.
        exists n. cbn [or_value_error mbind result_bind]. rewrite orb_true_r.
        reflexivity.
      - destruct (str_isdigit py s); [|intros _; left; reflexivity].
        destruct (int_of_str py s) as [n|]; [|discriminate]. intros _. right.
        exists n. reflexivity. }
    destruct (unreadable py d) eqn:Hu.
    + right. split; [apply Hhere; reflexivity|]. exists d.
      split; [apply elem_of_cons; left; reflexivity|exact Hu].
    + destruct IH as [[[ns Hns] Hall]|[Hr (d' & Hd' & Hu')]].
      * left. split.
        -- destruct (Hnext eq_refl) as [->|[n ->]]; [exists ns; exact Hns|].
           rewrite Hns. exists (n :: ns). reflexivity.
        -- intros d' Hd'. apply elem_of_cons in Hd' as [->|Hd']; [exact Hu|].
           apply Hall, Hd'.
      * right. split.
        -- destruct (Hnext eq_refl) as [->|[n ->]]; [exact Hr|]. rewrite Hr. reflexivity.
        -- exists d'. split; [apply elem_of_cons; right; exact Hd'|exact Hu'].
Qed.

Lemma deps_open_cases (py : Builtins) (deps : list dep) (tasks_df : list Task) :
  ((exists open, deps_open py deps tasks_df = Ok open) /\
   forall d, d ∈ deps -> unreadable py d = false) \/
  (deps_open py deps tasks_df = Raise ValueError /\
   exists d, d ∈ deps /\ unreadable py d = true).
Proof.
  rewrite deps_open_dep_ids. unfold dep_ids.
  destruct (dep_id_list_cases py deps) as [[[ns ->] Hall]|[-> Hex]].
  - left. split; [eexists; reflexivity|exact Hall].
  - right. split; [reflexivity|exact Hex].
Qed.

(** ** Labels *)

Lemma _label_from_score_steps (score : Q) :
  ((80 <= score)%Q -> _label_from_score score = "P1") /\
  ((60 <= score < 80)%Q -> _label_from_score score = "P2") /\
  ((40 <= score < 60)%Q -> _label_from_score score = "P3") /\
  ((score < 40)%Q -> _label_from_score score = "P4").
Proof.
  unfold _label_from_score.
  destruct (Qle_bool 80 score) eqn:E80;
    [apply Qle_bool_iff in E80
    |assert (~ (80 <= score)%Q) by (rewrite <- Qle_bool_iff; congruence)];
  (destruct (Qle_bool 60 score) eqn:E60;
    [apply Qle_bool_iff in E60
    |assert (~ (60 <= score)%Q) by (rewrite <- Qle_bool_iff; congruence)]);
  (destruct (Qle_bool 40 score) eqn:E40;
    [apply Qle_bool_iff in E40
    |assert (~ (40 <= score)%Q) by (rewrite <- Qle_bool_iff; congruence)]);
  repeat split; intros; try reflexivity; exfalso; lra.
Qed.

Lemma _label_from_score_P1 (score : Q) :
  _label_from_score score = "P1" <-> (80 <= score)%Q.
Proof.
  unfold _label_from_score. rewrite <- Qle_bool_iff.
  destruct (Qle_bool 80 score); [tauto|].
  destruct (Qle_bool 60 score); [split; discriminate|].
  destruct (Qle_bool 40 score); split; discriminate.
Qed.

(** ** The components of the tuple [recalc_priority] returns *)

Lemma Ok_tuple_inv {A B C D : Type} (a a' : A) (b b' : B) (c c' : C) (d d' : D) :
  Ok (a, b, c, d) = Ok (a', b', c', d') -> a = a' /\ b = b' /\ c = c' /\ d = d'.
Proof. intros H. injection H as -> -> -> ->. repeat split. Qed.

Lemma Ok_inv {A : Type} (a b : A) : Ok a = Ok b -> a = b.
Proof. intros H. injection H as ->. reflexivity. Qed.

Section RecalcFacts.

Variable parse_date : string -> option Z.
Variable today : Z.
Variable py : Builtins.
Variables (row : Task) (tasks_df : list Task) (days_window : Z).

Lemma recalc_priority_returns (open : bool) :
  days_window <> 0 ->
  deps_open py (default [] (dependencies row)) tasks_df = Ok open ->
  exists out, recalc_priority parse_date today py row tasks_df days_window = Ok out.
Proof.
  intros Hw Ho. unfold recalc_priority. rewrite Ho. cbn [mbind result_bind].
  destruct (_urgency_points_returns parse_date today (due_date row) days_window Hw)
    as [u ->].
  eexists. reflexivity.
Qed.

Lemma recalc_priority_deps (s : Q) (l st : string) (e : bool) :
  recalc_priority parse_date today py row tasks_df days_window = Ok (s, l, st, e) ->
  exists open, deps_open py (default [] (dependencies row)) tasks_df = Ok open.
Proof.
  unfold recalc_priority.
  destruct (deps_open py (default [] (dependencies row)) tasks_df) as [open|x];
    [|discriminate].
  intros _. exists open. reflexivity.
Qed.

Lemma recalc_priority_score (open : bool) (s : Q) (l st : string) (e : bool) :
  deps_open py (default [] (dependencies row)) tasks_df = Ok open ->
  recalc_priority parse_date today py row tasks_df days_window = Ok (s, l, st, e) ->
  exists u,
    _urgency_points parse_date today (due_date row) days_window = Ok u /\
    s = py_max 0 (py_min 100
          (inject_Z (_impact_points (default "Medium" (business_impact row)))
           + u
           + _info_points (default [] (required_info row))
                          (default [] (received_info row))
           + _effort_penalty (default 3%Z (effort row))
           + _blocked_penalty (default "Backlog" (status row)) open))%Q.
Proof.
  intros Ho. unfold recalc_priority. rewrite Ho. cbn [mbind result_bind].
  destruct (_urgency_points parse_date today (due_date row) days_window) as [u|x];
    [|discriminate].
  cbv zeta. intros H. apply Ok_tuple_inv in H as (<- & _ & _ & _).
  exists u. split; reflexivity.
Qed.

Lemma recalc_priority_label (s : Q) (l st : string) (e : bool) :
  recalc_priority parse_date today py row tasks_df days_window = Ok (s, l, st, e) ->
  l = _label_from_score s.
Proof.
  unfold recalc_priority.
  destruct (deps_open py (default [] (dependencies row)) tasks_df) as [open|x];
    [|discriminate].
  cbn [mbind result_bind].
  destruct (_urgency_points parse_date today (due_date row) days_window) as [u|x];
    [|discriminate].
  cbv zeta. intros H. apply Ok_tuple_inv in H as (<- & <- & _ & _). reflexivity.
Qed.

Lemma recalc_priority_status (open : bool) (s : Q) (l st : string) (e : bool) :
  deps_open py (default [] (dependencies row)) tasks_df = Ok open ->
  recalc_priority parse_date today py row tasks_df days_window = Ok (s, l, st, e) ->
  st =
    let status1 :=
      if (default "Backlog" (status row) =? "Waiting Info")%string
         && Qle_bool 1 (info_ratio (default [] (required_info row))
                                   (default [] (received_info row)))
      then "Backlog" else default "Backlog" (status row) in
    if open && negb (done_or_blocked status1)
    then "Blocked" else status1.
Proof.
  intros Ho. unfold recalc_priority. rewrite Ho. cbn [mbind result_bind].
  destruct (_urgency_points parse_date today (due_date row) days_window) as [u|x];
    [|discriminate].
  cbv zeta. intros H. apply Ok_tuple_inv in H as (_ & _ & <- & _). reflexivity.
Qed.

Lemma recalc_priority_escalated (s : Q) (l st : string) (e : bool) :
  recalc_priority parse_date today py row tasks_df days_window = Ok (s, l, st, e) ->
  e = (l =? "P1")%string
      && Qle_bool 1 (info_ratio (default [] (required_info row))
                                (default [] (received_info row))).
Proof.
  unfold recalc_priority.
  destruct (deps_open py (default [] (dependencies row)) tasks_df) as [open|x];
    [|discriminate].
  cbn [mbind result_bind].
  destruct (_urgency_points parse_date today (due_date row) days_window) as [u|x];
    [|discriminate].
  cbv zeta. intros H. apply Ok_tuple_inv in H as (_ & <- & _ & <-). reflexivity.
Qed.

Lemma recalc_priority_score_bounds (s : Q) (l st : string) (e : bool) :
  recalc_priority parse_date today py row tasks_df days_window = Ok (s, l, st, e) ->
  (0 <= s <= 100)%Q.
Proof.
  intros H. destruct (recalc_priority_deps _ _ _ _ H) as [open Ho].
  destruct (recalc_priority_score open _ _ _ _ Ho H) as (u & _ & ->).
  apply clamp_bounds. lra.
Qed.

End RecalcFacts.

(** The components of a returned tuple, gathered. *)
Ltac recalc_components H o Ho u Hu Hs Hl Hst He :=
  pose proof (recalc_priority_deps _ _ _ _ _ _ _ _ _ _ H) as (o & Ho);
  pose proof (recalc_priority_score _ _ _ _ _ _ _ _ _ _ _ Ho H) as (u & Hu & Hs);
  pose proof (recalc_priority_label _ _ _ _ _ _ _ _ _ _ H) as Hl;
  pose proof (recalc_priority_status _ _ _ _ _ _ _ _ _ _ _ Ho H) as Hst;
  pose proof (recalc_priority_escalated _ _ _ _ _ _ _ _ _ _ H) as He.

(** * The claims *)

(** ** Information readiness *)

(** C1 (as amended): in [recalc_priority] an empty [required_info] makes
    [info_ratio] equal to 0.0, not 1.0. Consequently, for every task with
    empty [required_info], whenever a tuple is returned [escalated] is
    false, the label is not P1 (at most 70 points can be reached), and an
    input status Waiting Info is not released to Backlog: the returned
    status is Waiting Info, or Blocked when a dependency is open. A tuple
    is returned whenever [days_window] is not 0 and the dependency
    entries convert. *)
Theorem C1_empty_required_info_ratio_is_zero
    (parse_date : string -> option Z) (today : Z) (py : Builtins)
    (row : Task) (tasks_df : list Task) (days_window : Z) :
  default [] (required_info row) = [] ->
  info_ratio (default [] (required_info row)) (default [] (received_info row)) = 0%Q /\
  (forall s l st e,
     recalc_priority parse_date today py row tasks_df days_window = Ok (s, l, st, e) ->
     e = false /\ l <> "P1" /\
     (status row = Some "Waiting Info" ->
      exists open,
        deps_open py (default [] (dependencies row)) tasks_df = Ok open /\
        st = if open then "Blocked" else "Waiting Info")) /\
  (days_window <> 0 ->
   forall open, deps_open py (default [] (dependencies row)) tasks_df = Ok open ->
   exists s l st,
     recalc_priority parse_date today py row tasks_df days_window = Ok (s, l, st, false)).
Proof.
  intros Hreq. split; [rewrite Hreq; reflexivity|].
  assert (Hcontent : forall s l st e,
     recalc_priority parse_date today py row tasks_df days_window = Ok (s, l, st, e) ->
     e = false /\ l <> "P1" /\
     (status row = Some "Waiting Info" ->
      exists open,
        deps_open py (default [] (dependencies row)) tasks_df = Ok open /\
        st = if open then "Blocked" else "Waiting Info")).
  { intros s l st e H.
    recalc_components H o Ho u Hu Hs Hl Hst He.
    rewrite Hreq in He, Hst, Hs. rewrite info_ratio_nil in He, Hst.
    rewrite _info_points_nil in Hs.
    change (Qle_bool 1 0) with false in He, Hst.
    rewrite andb_false_r in He, Hst.
    split; [exact He|]. split.
    - rewrite Hl, _label_from_score_P1.
      apply _urgency_points_bounds in Hu.
      pose proof (_impact_points_bounds (default "Medium" (business_impact row)))
        as [_ Hb].
      rewrite Zle_Qle in Hb. change (inject_Z 40) with 40%Q in Hb.
      pose proof (_effort_penalty_bounds (default 3 (effort row))).
      pose proof (_blocked_penalty_bounds (default "Backlog" (status row)) o).
      rewrite Hs.
      match goal with |- ~ (80 <= py_max 0 (py_min 100 ?x))%Q =>
        destruct (py_max_case 0 (py_min 100 x)) as [[? ?]|[? ?]];
        destruct (py_min_case 100 x) as [[? ?]|[? ?]]
      end; lra.
    - intros Hw0. exists o. split; [exact Ho|].
      rewrite Hw0 in Hst. simpl in Hst. rewrite andb_true_r in Hst. exact Hst. }
  split; [exact Hcontent|].
  intros Hw open Ho.
  destruct (recalc_priority_returns parse_date today py row tasks_df days_window
              open Hw Ho) as [[[[s l] st] e] H].
  destruct (Hcontent s l st e H) as (-> & _). exists s, l, st. exact H.
Qed.

Lemma C1_empty_required_info_ratio_is_zero_witness :
  info_ratio [] [] = 0%Q /\
  exists s l st,
    recalc_priority IsoDate.parse Sample.today Sample.py Sample.waiting_no_info [] 14
      = Ok (s, l, st, false) /\
    l <> "P1" /\ st = "Waiting Info".
Proof.
  destruct (C1_empty_required_info_ratio_is_zero
              IsoDate.parse Sample.today Sample.py Sample.waiting_no_info [] 14 eq_refl)
    as (Hr & Hcontent & Hret).
  split; [exact Hr|].
  destruct (Hret ltac:(lia) false eq_refl) as (s & l & st & H).
  exists s, l, st. split; [exact H|].
  destruct (Hcontent s l st false H) as (_ & Hl & Hst). split; [exact Hl|].
  destruct (Hst eq_refl) as (open & Ho & ->). injection Ho as <-. reflexivity.
Defined.

(** C1, as stated, fails: a task in Waiting Info with an empty
    [required_info] keeps its status, and its [info_ratio] is 0. *)
Lemma C1_counterexample :
  info_ratio [] [] = 0%Q /\ ~ (info_ratio [] [] == 1)%Q /\
  recalc_priority IsoDate.parse Sample.today Sample.py Sample.waiting_no_info [] 14
    = Ok (24 # 2, "P4", "Waiting Info", false) /\
  "Waiting Info" <> "Backlog".
Proof.
  split; [reflexivity|]. split; [intros H; discriminate H|].
  split; [vm_compute; reflexivity|discriminate].
Qed.

(** C2: the intersection behind [info_ratio] lower-cases its elements but
    does not trim them, unlike the one of [_info_points]. On the required
    list ["x"] with " x" received, [_info_points] awards the full 40
    points while [info_ratio] is 0, so the task is neither released from
    Waiting Info nor escalated although its label is P1. *)
Theorem C2_info_ratio_does_not_trim :
  covers ["x"] [" x"] /\
  (_info_points ["x"] [" x"] == 40)%Q /\
  (info_ratio ["x"] [" x"] == 0)%Q /\
  recalc_priority IsoDate.parse Sample.today Sample.py Sample.waiting_blank [] 14
    = Ok (100%Q, "P1", "Waiting Info", false).
Proof.
  split.
  - intros x Hx. apply list_elem_of_singleton in Hx as ->.
    apply list_elem_of_singleton. reflexivity.
  - split; [vm_compute; reflexivity|]. split; vm_compute; reflexivity.
Qed.

Lemma covers_intersection (required received : list string) :
  covers required received ->
  set_of strip_lower received ∩ set_of strip_lower required
    = set_of strip_lower required.
Proof.
  intros Hc. unfold set_of. apply set_eq. intros y.
  rewrite elem_of_intersection, !elem_of_list_to_set. split; [tauto|].
  intros Hy. split; [|exact Hy].
  apply list_elem_of_fmap in Hy as (x & -> & Hx). apply Hc, Hx.
Qed.

Lemma len_pos {A} (l : list A) : l <> [] -> 0 < len l.
Proof. destruct l; [congruence|]. intros _. unfold len. simpl. lia. Qed.

(** C3 (as amended): information-readiness points are 0 for an empty
    [required_info]; otherwise they are 40 times the size of the
    case-insensitive, trimmed set intersection divided by the number of
    entries of the [required_info] list; and they are exactly 40 when
    [required_info] is non-empty, its entries are pairwise distinct after
    trimming and lower-casing, and [received_info] is a
    case/whitespace-insensitive superset of it. *)
Theorem C3_info_points (required received : list string) :
  _info_points [] received = 0%Q /\
  (required <> [] ->
   (_info_points required received ==
      40 * quot (set_len (set_of strip_lower required ∩ set_of strip_lower received))
                (len required))%Q) /\
  (required <> [] -> NoDup (strip_lower <$> required) -> covers required received ->
   (_info_points required received == 40)%Q).
Proof.
  split; [reflexivity|]. split.
  - intros Hne. pose proof (len_pos required Hne) as Hpos.
    unfold _info_points. destruct required as [|x required]; [congruence|].
    rewrite Z.max_r by lia.
    rewrite (comm_L (∩) (set_of strip_lower received)). reflexivity.
  - intros Hne Hnd Hc. pose proof (len_pos required Hne) as Hpos.
    unfold _info_points. destruct required as [|x required]; [congruence|].
    rewrite Z.max_r by lia. rewrite (covers_intersection _ _ Hc).
    unfold set_len. rewrite (size_set_of_NoDup _ _ Hnd).
    fold (len (x :: required)). rewrite quot_same by lia. lra.
Qed.

Lemma C3_info_points_witness :
  (_info_points ["a"; "b"] [" B "; "c"; "A"] ==
     40 * quot (set_len (set_of strip_lower ["a"; "b"]
                           ∩ set_of strip_lower [" B "; "c"; "A"])) 2)%Q /\
  (_info_points ["a"; "b"] [" B "; "c"; "A"] == 40)%Q.
Proof.
  destruct (C3_info_points ["a"; "b"] [" B "; "c"; "A"]) as (_ & H2 & H3).
  assert (Hne : ["a"; "b"] <> []) by discriminate.
  split; [exact (H2 Hne)|].
  apply (H3 Hne).
  - apply (bool_decide_unpack _). vm_compute. exact I.
  - apply (bool_decide_unpack _). vm_compute. exact I.
Defined.

(** C3, as stated, fails when [required_info] repeats an entry: the
    received list covers the required one and only 20 points are given. *)
Lemma C3_counterexample :
  covers ["x"; "x"] ["x"] /\
  (_info_points ["x"; "x"] ["x"] == 20)%Q /\
  ~ (_info_points ["x"; "x"] ["x"] == 40)%Q.
Proof.
  split.
  - intros y Hy. apply list_elem_of_singleton.
    apply elem_of_cons in Hy as [->|Hy]; [reflexivity|].
    apply list_elem_of_singleton in Hy as ->. reflexivity.
  - split; [vm_compute; reflexivity|]. vm_compute. discriminate.
Qed.

(** ** Malformed dependency entries *)

(** C4: [recalc_priority] does raise on a malformed optional input: when
    some dependency entry is unreadable (a string that [str.isdigit]
    accepts and [int] cannot read, such as a superscript two, or an int
    whose [str] raises), the comprehension of the dependency filter
    raises [ValueError], whatever the other fields, the stored tasks and
    [days_window] are; no fallback is applied. *)
Theorem C4_unreadable_dependency_raises
    (parse_date : string -> option Z) (today : Z) (py : Builtins)
    (row : Task) (tasks_df : list Task) (days_window : Z) (d : dep) :
  d ∈ default [] (dependencies row) ->
  unreadable py d = true ->
  recalc_priority parse_date today py row tasks_df days_window = Raise ValueError.
Proof.
  intros Hd Hu. unfold recalc_priority. cbv zeta.
  destruct (deps_open_cases py (default [] (dependencies row)) tasks_df)
    as [[_ Hall]|[-> _]]; [|reflexivity].
  rewrite (Hall d Hd) in Hu. discriminate Hu.
Qed.

Lemma C4_unreadable_dependency_raises_witness :
  recalc_priority IsoDate.parse Sample.today Sample.py Sample.superscript_dep [] 14
    = Raise ValueError.
Proof.
  apply (C4_unreadable_dependency_raises IsoDate.parse Sample.today Sample.py
           Sample.superscript_dep [] 14 (DStr "²")); [|reflexivity].
  apply list_elem_of_singleton. reflexivity.
Defined.

(** ** Worked examples *)

(** C5: for a task with impact Critical, a due date equal to today,
    [required_info] ["x","y"], effort 3, no dependencies and status
    Backlog, [recalc_priority] returns score 87, label P1, status Backlog
    and escalated false when [received_info] is ["x"], and score 100
    (clamped from 107), label P1, status Backlog and escalated true when
    [received_info] is ["x","y"]. *)
Theorem C5_worked_examples
    (parse_date : string -> option Z) (today : Z) (py : Builtins)
    (row : Task) (tasks_df : list Task) (days_window : Z) (due : string) :
  business_impact row = Some "Critical" ->
  due_date row = Some due -> due <> "" -> parse_date due = Some today ->
  required_info row = Some ["x"; "y"] ->
  effort row = Some 3 ->
  dependencies row = Some [] ->
  status row = Some "Backlog" ->
  (received_info row = Some ["x"] ->
   exists s, recalc_priority parse_date today py row tasks_df days_window
               = Ok (s, "P1", "Backlog", false) /\ (s == 87)%Q) /\
  (received_info row = Some ["x"; "y"] ->
   exists s, recalc_priority parse_date today py row tasks_df days_window
               = Ok (s, "P1", "Backlog", true) /\ (s == 100)%Q).
Proof.
  intros Himp Hdue Hne Hparse Hreq Heff Hdeps Hst.
  assert (Hu : _urgency_points parse_date today (due_date row) days_window = Ok 30%Q).
  { rewrite Hdue, (_urgency_points_parsed parse_date today due today days_window Hne Hparse).
    rewrite Z.sub_diag. reflexivity. }
  split; intros Hrec; unfold recalc_priority;
    rewrite Hu, Himp, Hreq, Hrec, Heff, Hdeps, Hst;
    eexists; (split; [vm_compute; reflexivity|vm_compute; reflexivity]).
Qed.

Lemma C5_worked_examples_witness :
  (exists s, recalc_priority IsoDate.parse Sample.today Sample.py Sample.half_ready [] 14
               = Ok (s, "P1", "Backlog", false) /\ (s == 87)%Q) /\
  (exists s, recalc_priority IsoDate.parse Sample.today Sample.py Sample.fully_ready [] 14
               = Ok (s, "P1", "Backlog", true) /\ (s == 100)%Q).
Proof.
  split.
  - apply (C5_worked_examples IsoDate.parse Sample.today Sample.py Sample.half_ready [] 14
             "2026-11-03"); try reflexivity. discriminate.
  - apply (C5_worked_examples IsoDate.parse Sample.today Sample.py Sample.fully_ready [] 14
             "2026-11-03"); try reflexivity. discriminate.
Defined.

(** ** Dependency gating *)



(** ** Score range and label *)

(** C7: whenever [recalc_priority] returns, and it does whenever
    [days_window] is not 0 and the dependency entries convert to ids, the
    score lies in [0,100] and the label is the step function of that
    score: P1 from 80, P2 from 60, P3 from 40, P4 below. *)
Theorem C7_score_range_and_label_steps
    (parse_date : string -> option Z) (today : Z) (py : Builtins)
    (row : Task) (tasks_df : list Task) (days_window : Z) :
  (days_window <> 0 ->
   forall ids, dep_ids py (default [] (dependencies row)) = Ok ids ->
   exists out, recalc_priority parse_date today py row tasks_df days_window = Ok out) /\
  (forall s l st e,
     recalc_priority parse_date today py row tasks_df days_window = Ok (s, l, st, e) ->
     (0 <= s <= 100)%Q /\ label_steps s l).
Proof.
  split.
  - intros Hw ids Hids.
    exact (recalc_priority_returns parse_date today py row tasks_df days_window
             _ Hw (deps_open_of_ids py _ tasks_df ids Hids)).
  - intros s l st e H. split.
    + exact (recalc_priority_score_bounds _ _ _ _ _ _ _ _ _ _ H).
    + rewrite (recalc_priority_label _ _ _ _ _ _ _ _ _ _ H).
      apply _label_from_score_steps.
Qed.

Lemma C7_score_range_and_label_steps_witness :
  exists s l st e,
    recalc_priority IsoDate.parse Sample.today Sample.py Sample.half_ready [] 14
      = Ok (s, l, st, e) /\
    (0 <= s <= 100)%Q /\ label_steps s l.
Proof.
  destruct (C7_score_range_and_label_steps
              IsoDate.parse Sample.today Sample.py Sample.half_ready [] 14)
    as [Hret Hprop].
  destruct (Hret ltac:(lia) ∅ eq_refl) as [[[[s l] st] e] H].
  exists s, l, st, e. split; [exact H|]. exact (Hprop s l st e H).
Defined.

(** ** Urgency *)

(** C8: urgency points are 0 when the due date is absent, empty or
    unparseable and 30 when [days_left = due_date - today] is at most 0;
    for a positive [days_left] and a non-zero [days_window] they are
    [30 * (1 - days_left / days_window)] clamped to [0,30]; and for a
    positive [days_window] and a fixed due date they do not increase when
    [days_left] increases and are 0 once [days_left >= days_window]. *)
Theorem C8_urgency_points
    (parse_date : string -> option Z) (due : string) (due_dt days_window : Z) :
  (forall today,
     _urgency_points parse_date today None days_window = Ok 0%Q /\
     _urgency_points parse_date today (Some "") days_window = Ok 0%Q /\
     (parse_date due = None ->
      _urgency_points parse_date today (Some due) days_window = Ok 0%Q)) /\
  (due <> "" -> parse_date due = Some due_dt ->
   (forall today, due_dt - today <= 0 ->
      _urgency_points parse_date today (Some due) days_window = Ok 30%Q) /\
   (forall today, 0 < due_dt - today -> days_window <> 0 ->
      exists u,
        _urgency_points parse_date today (Some due) days_window = Ok u /\
        (0 <= u <= 30)%Q /\
        let ramp := (30 * (1 - quot (due_dt - today) days_window))%Q in
        ((ramp <= 0 -> u == 0) /\ (0 <= ramp <= 30 -> u == ramp) /\
         (30 <= ramp -> u == 30))%Q) /\
   (0 < days_window ->
    (forall today today', due_dt - today <= due_dt - today' ->
       exists u u',
         _urgency_points parse_date today (Some due) days_window = Ok u /\
         _urgency_points parse_date today' (Some due) days_window = Ok u' /\
         (u' <= u)%Q) /\
    (forall today, days_window <= due_dt - today ->
       exists u,
         _urgency_points parse_date today (Some due) days_window = Ok u /\
         (u == 0)%Q))).
Proof.
  split.
  - intros today. split; [reflexivity|]. split; [reflexivity|].
    apply _urgency_points_unparsed.
  - intros Hne Hp.
    assert (Hramp : forall today, 0 < due_dt - today -> days_window <> 0 ->
              _urgency_points parse_date today (Some due) days_window =
              Ok (py_min 30 (py_max 0 (30 * (1 - quot (due_dt - today) days_window)))%Q)).
    { intros today Hpos Hw.
      rewrite (_urgency_points_parsed parse_date today due due_dt days_window Hne Hp).
      destruct (Z.leb_spec (due_dt - today) 0) as [?|_]; [lia|].
      unfold truediv. destruct (Z.eqb_spec days_window 0) as [?|_]; [congruence|].
      reflexivity. }
    assert (Hlate : forall today, due_dt - today <= 0 ->
              _urgency_points parse_date today (Some due) days_window = Ok 30%Q).
    { intros today Hle.
      rewrite (_urgency_points_parsed parse_date today due due_dt days_window Hne Hp).
      destruct (Z.leb_spec (due_dt - today) 0) as [_|?]; [reflexivity|lia]. }
    split; [exact Hlate|]. split.
    + intros today Hpos Hw. eexists. split; [apply (Hramp today Hpos Hw)|].
      split; [apply ramp_bounds|]. cbv zeta.
      set (ramp := (30 * (1 - quot (due_dt - today) days_window))%Q).
      destruct (py_min_case 30 (py_max 0 ramp)) as [[H1 H2]|[H1 H2]];
        destruct (py_max_case 0 ramp) as [[H3 H4]|[H3 H4]];
        repeat split; intros; lra.
    + intros Hw. split.
      * intros today today' Hle.
        destruct (Z.le_gt_cases (due_dt - today') 0) as [Hl'|Hp'].
        { exists 30%Q, 30%Q.
          split; [apply Hlate; lia|]. split; [apply Hlate; exact Hl'|lra]. }
        destruct (Z.le_gt_cases (due_dt - today) 0) as [Hl|Hp0].
        { eexists 30%Q, _. split; [apply Hlate; exact Hl|].
          split; [apply Hramp; lia|]. apply ramp_bounds. }
        eexists _, _. split; [apply Hramp; lia|]. split; [apply Hramp; lia|].
        pose proof (quot_mono (due_dt - today) (due_dt - today') days_window Hle Hw) as Hq.
        set (q := quot (due_dt - today) days_window) in *.
        set (q' := quot (due_dt - today') days_window) in *.
        destruct (py_min_case 30 (py_max 0 (30 * (1 - q)))) as [[H1 H2]|[H1 H2]];
          destruct (py_max_case 0 (30 * (1 - q))) as [[H3 H4]|[H3 H4]];
          destruct (py_min_case 30 (py_max 0 (30 * (1 - q')))) as [[H5 H6]|[H5 H6]];
          destruct (py_max_case 0 (30 * (1 - q'))) as [[H7 H8]|[H7 H8]]; lra.
      * intros today Hge. eexists. split; [apply Hramp; lia|].
        pose proof (quot_ge_1 (due_dt - today) days_window Hge Hw) as Hq.
        set (q := quot (due_dt - today) days_window) in *.
        destruct (py_min_case 30 (py_max 0 (30 * (1 - q)))) as [[H1 H2]|[H1 H2]];
          destruct (py_max_case 0 (30 * (1 - q))) as [[H3 H4]|[H3 H4]]; lra.
Qed.

Lemma C8_urgency_points_witness :
  _urgency_points IsoDate.parse 739935 (Some "2026-11-10") 14 = Ok 30%Q /\
  (exists u, _urgency_points IsoDate.parse Sample.today (Some "2026-11-10") 14 = Ok u /\
             (u == 15)%Q) /\
  (exists u u',
     _urgency_points IsoDate.parse Sample.today (Some "2026-11-10") 14 = Ok u /\
     _urgency_points IsoDate.parse 739920 (Some "2026-11-10") 14 = Ok u' /\
     (u' <= u)%Q) /\
  (exists u, _urgency_points IsoDate.parse 739900 (Some "2026-11-10") 14 = Ok u /\
             (u == 0)%Q).
Proof.
  destruct (C8_urgency_points IsoDate.parse "2026-11-10" 739930 14) as [_ H].
  destruct H as (Hlate & Hramp & Hpos); [discriminate|reflexivity|].
  destruct Hpos as [Hmono Hzero]; [lia|].
  split; [apply Hlate; lia|]. split; [|split].
  - destruct (Hramp Sample.today) as (u & Hu & _ & _ & Hmid & _);
      [unfold Sample.today; lia|lia|].
    exists u. split; [exact Hu|]. rewrite Hmid; vm_compute; [reflexivity|].
    split; discriminate.
  - apply Hmono. unfold Sample.today. lia.
  - apply Hzero. lia.
Defined.

(** ** Top five *)

Lemma string_lt_irrefl (a : string) : ~ String_as_OT.lt a a.
Proof. apply (StrictOrder_Irreflexive (R := String_as_OT.lt)). Qed.

Lemma string_lt_trans (a b c : string) :
  String_as_OT.lt a b -> String_as_OT.lt b c -> String_as_OT.lt a c.
Proof. apply (StrictOrder_Transitive (R := String_as_OT.lt)). Qed.

(** The comparator of the sort decides the order of the specification. *)
Lemma sort_le_ranked_before (a b : Task) : sort_le a b <-> ranked_before a b.
Proof.
  unfold sort_le, sort_leb, ranked_before.
  destruct (String_as_OT.compare_spec (priority_label a) (priority_label b))
    as [Heq|Hlt|Hgt].
  - rewrite Qle_bool_iff. split; [intros H; right; split; assumption|].
    intros [Hlt|[_ H]]; [|exact H].
    rewrite Heq in Hlt. destruct (string_lt_irrefl _ Hlt).
  - split; [intros _; left; exact Hlt|reflexivity].
  - split; [discriminate|].
    intros [Hlt|[Heq _]].
    + destruct (string_lt_irrefl _ (string_lt_trans _ _ _ Hlt Hgt)).
    + rewrite Heq in Hgt. destruct (string_lt_irrefl _ Hgt).
Qed.

#[global] Instance sort_le_total : Total sort_le.
Proof.
  intros a b. rewrite !sort_le_ranked_before. unfold ranked_before.
  destruct (String_as_OT.compare_spec (priority_label a) (priority_label b))
    as [Heq|Hlt|Hgt].
  - destruct (Qlt_le_dec (priority_score a) (priority_score b)) as [H|H].
    + right. right. split; [symmetry; exact Heq|apply Qlt_le_weak, H].
    + left. right. split; [exact Heq|exact H].
  - left. left. exact Hlt.
  - right. left. exact Hgt.
Qed.

#[global] Instance sort_le_trans : Transitive sort_le.
Proof.
  intros a b c. rewrite !sort_le_ranked_before. unfold ranked_before.
  intros [H1|[E1 H1]] [H2|[E2 H2]].
  - left. exact (string_lt_trans _ _ _ H1 H2).
  - left. rewrite <- E2. exact H1.
  - left. rewrite E1. exact H2.
  - right. split; [congruence|]. exact (Qle_trans _ _ _ H2 H1).
Qed.

Lemma StronglySorted_ranked_before (l : list Task) :
  StronglySorted sort_le l -> StronglySorted ranked_before l.
Proof.
  induction 1 as [|a l Hs IH Hf]; constructor; [exact IH|].
  eapply Forall_impl; [exact Hf|]. intros b. apply sort_le_ranked_before.
Qed.

(** C9: [top5] returns the first five rows of an arrangement of the task
    collection that is ordered by label ascending (P1 < P2 < P3 < P4 in
    the string order used) and, among equal labels, by score descending;
    for labels [P2,P1,P1,P3] with scores [50,90,70,10] the result is the
    P1/90 task, then P1/70, then P2/50, then P3/10. *)
Theorem C9_top5_order (df : list Task) :
  (exists sorted,
     sorted ≡ₚ df /\ StronglySorted ranked_before sorted /\
     top5 df = select_columns <$> take 5 sorted) /\
  length (top5 df) = Nat.min 5 (length df) /\
  (String_as_OT.lt "P1" "P2" /\ String_as_OT.lt "P2" "P3" /\ String_as_OT.lt "P3" "P4") /\
  top5 [Sample.scored 1 "P2" 50; Sample.scored 2 "P1" 90;
        Sample.scored 3 "P1" 70; Sample.scored 4 "P3" 10]
    = select_columns <$> [Sample.scored 2 "P1" 90; Sample.scored 3 "P1" 70;
                          Sample.scored 1 "P2" 50; Sample.scored 4 "P3" 10].
Proof.
  assert (Htop : top5 df = select_columns <$> take 5 (sort_values df)).
  { destruct df; reflexivity. }
  split; [|split; [|split]].
  - exists (sort_values df). split; [apply merge_sort_Permutation|].
    split; [|exact Htop].
    apply StronglySorted_ranked_before, StronglySorted_merge_sort; apply _.
  - rewrite Htop, length_fmap, length_take.
    unfold sort_values. rewrite (Permutation_length (merge_sort_Permutation sort_le df)).
    reflexivity.
  - repeat split.
  - vm_compute. reflexivity.
Qed.

(** ** Independence from the descriptive fields *)

Lemma foldl_discard_done_same (ids acc : gset Z) (t1 t2 : list Task) :
  same_id_status t1 t2 ->
  foldl (discard_done ids) acc t1 = foldl (discard_done ids) acc t2.
Proof.
  intros H. revert acc.
  induction H as [|a b t1 t2 [Hid Hst] _ IH]; intros acc; [reflexivity|].
  simpl. unfold discard_done at 2 4. rewrite Hid, Hst. apply IH.
Qed.

Lemma deps_open_same (py : Builtins) (deps : list dep) (t1 t2 : list Task) :
  same_id_status t1 t2 -> deps_open py deps t1 = deps_open py deps t2.
Proof.
  intros H. rewrite !deps_open_dep_ids. unfold any_open, open_ids.
  destruct (dep_ids py deps) as [ids|x]; [|reflexivity]. cbn [mbind result_bind].
  rewrite (foldl_discard_done_same _ _ t1 t2 H). reflexivity.
Qed.

(** C10: two task records that agree on status, due date, required and
    received information, business impact, effort and dependencies,
    scored against task collections whose rows agree on id and status,
    get the same result from [recalc_priority], whatever their id, title,
    description, category, tags and stored priority. *)
Theorem C10_descriptive_fields_ignored
    (parse_date : string -> option Z) (today : Z) (py : Builtins)
    (r1 r2 : Task) (t1 t2 : list Task) (days_window : Z) :
  same_inputs r1 r2 -> same_id_status t1 t2 ->
  recalc_priority parse_date today py r1 t1 days_window
    = recalc_priority parse_date today py r2 t2 days_window.
Proof.
  intros (Hst & Hdue & Hreq & Hrec & Himp & Heff & Hdeps) Ht.
  unfold recalc_priority.
  rewrite Hst, Hdue, Hreq, Hrec, Himp, Heff, Hdeps.
  rewrite (deps_open_same py _ t1 t2 Ht). reflexivity.
Qed.

Lemma C10_descriptive_fields_ignored_witness :
  recalc_priority IsoDate.parse Sample.today Sample.py Sample.half_ready [Sample.dep_not_done] 14
    = recalc_priority IsoDate.parse Sample.today Sample.py Sample.half_ready_renamed
        [Sample.dep_not_done_edited] 14.
Proof.
  apply (C10_descriptive_fields_ignored IsoDate.parse Sample.today Sample.py
           Sample.half_ready Sample.half_ready_renamed
           [Sample.dep_not_done] [Sample.dep_not_done_edited] 14).
  - repeat split.
  - repeat constructor.
Defined.

(** * Further properties of the engine *)

(** ** When the engine raises *)

Lemma _urgency_points_raises
    (parse_date : string -> option Z) (today : Z)
    (due : option string) (days_window : Z) (e : exn) :
  _urgency_points parse_date today due days_window = Raise e <->
  e = ZeroDivisionError /\ days_window = 0 /\
  exists s d, due = Some s /\ s <> "" /\ parse_date s = Some d /\ today < d.
Proof.
  split.
  - destruct due as [s|]; [|discriminate].
    destruct (parse_date s) as [d|] eqn:Hp.
    + destruct (decide (s = "")) as [->|Hs]; [discriminate|].
      rewrite (_urgency_points_parsed parse_date today s d days_window Hs Hp).
      destruct (Z.leb_spec (d - today) 0) as [?|Hlt]; [discriminate|].
      unfold truediv. destruct (Z.eqb_spec days_window 0) as [Hz|?]; [|discriminate].
      intros [= <-]. split; [reflexivity|]. split; [exact Hz|]. exists s, d.
      split; [reflexivity|]. split; [exact Hs|]. split; [exact Hp|lia].
    + rewrite (_urgency_points_unparsed parse_date today s days_window Hp). discriminate.
  - intros (-> & -> & s & d & -> & Hs & Hp & Hlt).
    rewrite (_urgency_points_parsed parse_date today s d 0 Hs Hp).
    destruct (Z.leb_spec (d - today) 0) as [?|_]; [lia|]. reflexivity.
Qed.

(** X1: [recalc_priority] raises [ValueError] exactly when some
    dependency entry is unreadable (an int whose [str] raises, or a string
    that [str.isdigit] accepts and [int] cannot read); it raises
    [ZeroDivisionError] exactly when no entry is unreadable, [days_window]
    is 0 and the due date is a non-empty string that parses to a day
    after today; it returns a tuple in every other case. *)
Theorem X1_recalc_priority_raises_iff
    (parse_date : string -> option Z) (today : Z) (py : Builtins)
    (row : Task) (tasks_df : list Task) (days_window : Z) :
  let unreadable_entry :=
    exists d, d ∈ default [] (dependencies row) /\ unreadable py d = true in
  let division_by_zero :=
    days_window = 0 /\
    exists s d, due_date row = Some s /\ s <> "" /\ parse_date s = Some d /\ today < d in
  (recalc_priority parse_date today py row tasks_df days_window = Raise ValueError
   <-> unreadable_entry) /\
  (recalc_priority parse_date today py row tasks_df days_window = Raise ZeroDivisionError
   <-> ~ unreadable_entry /\ division_by_zero) /\
  ((exists out, recalc_priority parse_date today py row tasks_df days_window = Ok out)
   <-> ~ unreadable_entry /\ ~ division_by_zero).
Proof.
  cbv zeta.
  pose proof (_urgency_points_raises parse_date today (due_date row) days_window) as Hu.
  unfold recalc_priority. cbv zeta.
  destruct (deps_open_cases py (default [] (dependencies row)) tasks_df)
    as [[[open ->] Hall]|[-> Hex]]; cbn [mbind result_bind].
  - assert (Hno : ~ exists d, d ∈ default [] (dependencies row) /\ unreadable py d = true).
    { intros (d & Hd & Hud). rewrite (Hall d Hd) in Hud. discriminate. }
    destruct (_urgency_points parse_date today (due_date row) days_window)
      as [u|e] eqn:Hup; cbn [mbind result_bind mret result_ret].
    + assert (Hnz : ~ (days_window = 0 /\
                       exists s d, due_date row = Some s /\ s <> "" /\
                                   parse_date s = Some d /\ today < d)).
      { intros Hz. assert (Hr : Ok u = Raise ZeroDivisionError :> result Q)
          by (apply Hu; tauto). discriminate Hr. }
      split; [split; [discriminate|tauto]|].
      split; [split; [discriminate|tauto]|].
      split; [tauto|]. intros _. eexists. reflexivity.
    + destruct (proj1 (Hu e) eq_refl) as (-> & Hz).
      split; [split; [discriminate|tauto]|].
      split; [split; [tauto|reflexivity]|].
      split; [intros [out H]; discriminate|tauto].
  - split; [split; [intros _; exact Hex|reflexivity]|].
    split; [split; [discriminate|tauto]|].
    split; [intros [out H]; discriminate|tauto].
Qed.

Lemma X1_recalc_priority_raises_iff_witness :
  recalc_priority IsoDate.parse Sample.today Sample.py Sample.superscript_dep [] 0
    = Raise ValueError /\
  recalc_priority IsoDate.parse Sample.today Sample.py
    (Sample.task 5 "plan" "Backlog" (Some "2026-11-10") [] [] "Low" 1 [DStr "٧"]) [] 0
    = Raise ZeroDivisionError /\
  exists out,
    recalc_priority IsoDate.parse Sample.today Sample.py Sample.half_ready [] 0 = Ok out.
Proof.
  split; [|split].
  - apply (X1_recalc_priority_raises_iff IsoDate.parse Sample.today Sample.py
             Sample.superscript_dep [] 0).
    exists (DStr "²"). split; [apply list_elem_of_singleton; reflexivity|reflexivity].
  - apply (X1_recalc_priority_raises_iff IsoDate.parse Sample.today Sample.py
             (Sample.task 5 "plan" "Backlog" (Some "2026-11-10") [] [] "Low" 1
                [DStr "٧"]) [] 0).
    split.
    + intros (d & Hd & Hu). apply list_elem_of_singleton in Hd as ->. discriminate Hu.
    + split; [reflexivity|]. exists "2026-11-10", 739930.
      split; [reflexivity|]. split; [discriminate|].
      split; [reflexivity|unfold Sample.today; lia].
  - apply (X1_recalc_priority_raises_iff IsoDate.parse Sample.today Sample.py
             Sample.half_ready [] 0).
    split.
    + intros (d & Hd & _). inversion Hd.
    + intros (_ & s & d & Hs & _ & Hp & Hlt).
      injection Hs as <-. vm_compute in Hp. injection Hp as <-.
      unfold Sample.today in Hlt. lia.
Defined.

(** X2: urgency points are always within [0,30], and with a negative
    [days_window] every non-empty due date that parses gets the full 30
    points, however far away it is. *)
Theorem X2_urgency_range_and_negative_window
    (parse_date : string -> option Z) (today : Z)
    (due : option string) (days_window : Z) :
  (forall u, _urgency_points parse_date today due days_window = Ok u ->
             (0 <= u <= 30)%Q) /\
  (days_window < 0 ->
   forall s d, due = Some s -> s <> "" -> parse_date s = Some d ->
   exists u, _urgency_points parse_date today due days_window = Ok u /\ (u == 30)%Q).
Proof.
  split; [intros u; apply _urgency_points_bounds|].
  intros Hw s d -> Hs Hp.
  rewrite (_urgency_points_parsed parse_date today s d days_window Hs Hp).
  destruct (Z.leb_spec (d - today) 0) as [_|Hpos]; [exists 30%Q; split; [reflexivity|lra]|].
  unfold truediv. destruct (Z.eqb_spec days_window 0) as [?|_]; [lia|].
  eexists. split; [reflexivity|].
  assert (Hq : (quot (d - today) days_window <= 0)%Q).
  { unfold quot, Qdiv.
    assert (H1 : (0 <= inject_Z (d - today))%Q).
    { change 0%Q with (inject_Z 0). rewrite <- Zle_Qle. lia. }
    assert (H2 : (/ inject_Z days_window <= 0)%Q).
    { destruct days_window as [|p|p]; try lia. unfold Qinv, Qle. simpl. lia. }
    nra. }
  set (q := quot (d - today) days_window) in *.
  destruct (py_min_case 30 (py_max 0 (30 * (1 - q)))) as [[H1 H2]|[H1 H2]];
    destruct (py_max_case 0 (30 * (1 - q))) as [[H3 H4]|[H3 H4]]; lra.
Qed.

Lemma X2_urgency_range_and_negative_window_witness :
  exists u,
    _urgency_points IsoDate.parse Sample.today (Some "2027-01-01") (-14) = Ok u /\
    (0 <= u <= 30)%Q /\ (u == 30)%Q.
Proof.
  destruct (X2_urgency_range_and_negative_window
              IsoDate.parse Sample.today (Some "2027-01-01") (-14)) as [Hb Hneg].
  destruct (Hneg ltac:(lia) "2027-01-01" 739982 eq_refl ltac:(discriminate) eq_refl)
    as (u & Hu & H30).
  exists u. split; [exact Hu|]. split; [exact (Hb u Hu)|exact H30].
Defined.

(** ** Dependencies *)

Lemma open_dep_or_closed_dep (tasks_df : list Task) (d : Z) :
  open_dep tasks_df d \/ closed_dep tasks_df d.
Proof.
  unfold open_dep, closed_dep. induction tasks_df as [|r tasks_df IH].
  - left. intros r Hr. inversion Hr.
  - destruct IH as [Hopen|(r' & Hr' & Hid & Hst)].
    + destruct (decide (id r = d /\ status r = Some "Done")) as [[Hid Hst]|Hn].
      * right. exists r. split; [apply elem_of_cons; left; reflexivity|]. tauto.
      * left. intros r' Hr' Hid Hst. apply elem_of_cons in Hr' as [->|Hr'].
        -- apply Hn. tauto.
        -- exact (Hopen r' Hr' Hid Hst).
    + right. exists r'. split; [apply elem_of_cons; right; exact Hr'|]. tauto.
Qed.

Lemma open_dep_not_closed_dep (tasks_df : list Task) (d : Z) :
  open_dep tasks_df d -> ~ closed_dep tasks_df d.
Proof. intros Ho (r & Hr & Hid & Hst). exact (Ho r Hr Hid Hst). Qed.

Lemma any_open_false_closed (ids : gset Z) (tasks_df : list Task) :
  any_open ids tasks_df = false <->
  forall d, d ∈ ids -> closed_dep tasks_df d.
Proof.
  rewrite <- not_true_iff_false, any_open_true. split.
  - intros Hn d Hd. destruct (open_dep_or_closed_dep tasks_df d) as [Ho|Hc]; [|exact Hc].
    exfalso. apply Hn. exists d. tauto.
  - intros Hall (d & Hd & Ho). exact (open_dep_not_closed_dep _ _ Ho (Hall d Hd)).
Qed.

Lemma any_open_subset_rows (ids : gset Z) (t1 t2 : list Task) :
  (forall r, r ∈ t1 -> r ∈ t2) ->
  any_open ids t2 = true -> any_open ids t1 = true.
Proof.
  intros Hsub. rewrite !any_open_true. intros (d & Hd & Ho).
  exists d. split; [exact Hd|]. intros r Hr. apply Ho, Hsub, Hr.
Qed.

Lemma any_open_Permutation (ids : gset Z) (t1 t2 : list Task) :
  t1 ≡ₚ t2 -> any_open ids t1 = any_open ids t2.
Proof.
  intros Hp. apply eq_true_iff_eq. split; apply any_open_subset_rows; intros r Hr.
  - rewrite Hp. exact Hr.
  - rewrite <- Hp. exact Hr.
Qed.

Lemma deps_open_Permutation (py : Builtins) (deps : list dep) (t1 t2 : list Task) :
  t1 ≡ₚ t2 -> deps_open py deps t1 = deps_open py deps t2.
Proof.
  intros Hp. rewrite !deps_open_dep_ids.
  destruct (dep_ids py deps) as [ids|x]; [|reflexivity]. cbn [mbind result_bind].
  rewrite (any_open_Permutation ids t1 t2 Hp). reflexivity.
Qed.

(** X3: when the dependency entries convert, no dependency is open
    exactly when every dependency id the code keeps has a row in
    [tasks_df] with status Done; an empty dependency list opens nothing. *)
Theorem X3_deps_open_false_iff_all_done
    (py : Builtins) (deps : list dep) (tasks_df : list Task) :
  (forall ids, dep_ids py deps = Ok ids ->
     (deps_open py deps tasks_df = Ok false <->
      forall d, d ∈ ids -> closed_dep tasks_df d)) /\
  deps_open py [] tasks_df = Ok false.
Proof.
  split; [|reflexivity]. intros ids Hids.
  rewrite (deps_open_of_ids py deps tasks_df ids Hids).
  rewrite <- any_open_false_closed. split.
  - intros H. injection H as H. exact H.
  - intros ->. reflexivity.
Qed.

Lemma X3_deps_open_false_iff_all_done_witness :
  deps_open Sample.py [DInt 4; DStr "4"] [Sample.dep_not_done; Sample.finished]
    = Ok false /\
  closed_dep [Sample.dep_not_done; Sample.finished] 4.
Proof.
  destruct (X3_deps_open_false_iff_all_done Sample.py
              [DInt 4; DStr "4"] [Sample.dep_not_done; Sample.finished]) as [H _].
  destruct (H (list_to_set [4; 4]) eq_refl) as [H1 H2].
  assert (Hc : closed_dep [Sample.dep_not_done; Sample.finished] 4).
  { exists Sample.finished. split; [|split; reflexivity].
    apply elem_of_cons; right. apply list_elem_of_singleton. reflexivity. }
  split; [|exact Hc]. apply H2. intros d Hd.
  apply elem_of_list_to_set in Hd.
  assert (d = 4) as ->.
  { apply elem_of_cons in Hd as [->|Hd]; [reflexivity|].
    apply list_elem_of_singleton in Hd. exact Hd. }
  exact Hc.
Defined.

Lemma recalc_priority_of_urgency
    (parse_date : string -> option Z) (today : Z) (py : Builtins)
    (row : Task) (tasks_df : list Task) (days_window : Z) (open : bool) (u : Q) :
  deps_open py (default [] (dependencies row)) tasks_df = Ok open ->
  _urgency_points parse_date today (due_date row) days_window = Ok u ->
  exists s l st e,
    recalc_priority parse_date today py row tasks_df days_window = Ok (s, l, st, e).
Proof.
  intros Ho Hu. unfold recalc_priority. rewrite Ho. cbn [mbind result_bind].
  rewrite Hu. do 4 eexists. reflexivity.
Qed.

(** X4: the result of [recalc_priority] does not depend on the order of
    the rows of [tasks_df], and taking rows away from [tasks_df] never
    unblocks a task: a task that was not Blocked on input and is returned
    Blocked is still returned Blocked against any sub-collection. *)
Theorem X4_task_rows_order_and_removal
    (parse_date : string -> option Z) (today : Z) (py : Builtins)
    (row : Task) (t1 t2 : list Task) (days_window : Z) :
  (t1 ≡ₚ t2 ->
   recalc_priority parse_date today py row t1 days_window
     = recalc_priority parse_date today py row t2 days_window) /\
  ((forall r, r ∈ t1 -> r ∈ t2) ->
   default "Backlog" (status row) <> "Blocked" ->
   forall s l e,
     recalc_priority parse_date today py row t2 days_window = Ok (s, l, "Blocked", e) ->
     exists s' l' e',
       recalc_priority parse_date today py row t1 days_window = Ok (s', l', "Blocked", e')).
Proof.
  split.
  - intros Hp. unfold recalc_priority.
    rewrite (deps_open_Permutation py _ t1 t2 Hp). reflexivity.
  - intros Hsub Hnb s l e H.
    recalc_components H o2 Ho2 u Hu Hs Hl Hst He.
    apply deps_open_Ok in Ho2 as (ids & Hids & ->).
    pose proof (deps_open_of_ids py _ t1 ids Hids) as Ho1.
    destruct (recalc_priority_of_urgency parse_date today py row t1 days_window _ u Ho1 Hu)
      as (s' & l' & st' & e' & H').
    exists s', l', e'. rewrite H'. do 3 f_equal.
    rewrite (recalc_priority_status _ _ _ _ _ _ _ _ _ _ _ Ho1 H'). cbv zeta in Hst |- *.
    set (status1 :=
           if (default "Backlog" (status row) =? "Waiting Info")%string
              && Qle_bool 1 (info_ratio (default [] (required_info row))
                                        (default [] (received_info row)))
           then "Backlog" else default "Backlog" (status row)) in *.
    assert (Hs1 : status1 <> "Blocked").
    { subst status1.
      match goal with |- (if ?c then _ else _) <> _ => destruct c end;
        [discriminate|exact Hnb]. }
    destruct (any_open ids t2) eqn:Ho2;
      [|cbn [andb] in Hst; congruence].
    rewrite (any_open_subset_rows ids t1 t2 Hsub Ho2).
    cbn [andb] in Hst |- *. destruct (negb (done_or_blocked status1)); [reflexivity|].
    congruence.
Qed.

Lemma X4_task_rows_order_and_removal_witness :
  recalc_priority IsoDate.parse Sample.today Sample.py Sample.gated
      [Sample.dep_not_done; Sample.finished] 14
    = recalc_priority IsoDate.parse Sample.today Sample.py Sample.gated
        [Sample.finished; Sample.dep_not_done] 14 /\
  exists s' l' e',
    recalc_priority IsoDate.parse Sample.today Sample.py Sample.gated [] 14
      = Ok (s', l', "Blocked", e').
Proof.
  split.
  - apply (X4_task_rows_order_and_removal IsoDate.parse Sample.today Sample.py Sample.gated
             [Sample.dep_not_done; Sample.finished]
             [Sample.finished; Sample.dep_not_done] 14).
    apply perm_swap.
  - apply (proj2 (X4_task_rows_order_and_removal IsoDate.parse Sample.today Sample.py Sample.gated
                    [] [Sample.dep_not_done] 14)
             ltac:(intros r Hr; inversion Hr) ltac:(discriminate)
             (7 # 2)%Q "P4" false).
    vm_compute. reflexivity.
Defined.

(** A string entry that [str.isdigit] rejects leaves the comprehension
    as it is without the entry, wherever in the list it stands. *)
Lemma dep_id_list_dropped (py : Builtins) (pre post : list dep) (s : string) :
  str_isdigit py s = false ->
  dep_id_list py (pre ++ DStr s :: post)%list = dep_id_list py (pre ++ post)%list.
Proof.
  intros Hs. induction pre as [|d pre IH].
  - cbn [app dep_id_list dep_keep]. rewrite Hs. reflexivity.
  - change ((d :: pre) ++ DStr s :: post)%list with (d :: (pre ++ DStr s :: post))%list.
    change ((d :: pre) ++ post)%list with (d :: (pre ++ post))%list.
    cbn [dep_id_list]. rewrite IH. reflexivity.
Qed.

(** A string entry that [str.isdigit] accepts and [int] reads as [n]
    leaves the comprehension as it is with the int [n] in its place. *)
Lemma dep_id_list_numeral (py : Builtins) (pre post : list dep) (s : string) (n : Z) :
  str_isdigit py s = true -> int_of_str py s = Some n -> str_of_int py n <> None ->
  dep_id_list py (pre ++ DStr s :: post)%list
    = dep_id_list py (pre ++ DInt n :: post)%list.
Proof.
  intros Hs Hi Hn. induction pre as [|d pre IH].
  - cbn [app dep_id_list dep_keep dep_int]. rewrite Hs, Hi.
    destruct (str_of_int py n) as [t|]; [|congruence].
    cbn [or_value_error mbind result_bind orb]. rewrite orb_true_r. reflexivity.
  - change ((d :: pre) ++ DStr s :: post)%list with (d :: (pre ++ DStr s :: post))%list.
    change ((d :: pre) ++ DInt n :: post)%list with (d :: (pre ++ DInt n :: post))%list.
    cbn [dep_id_list]. rewrite IH. reflexivity.
Qed.

(** Two rows that differ in their dependency lists only are scored alike
    when the two lists give the same ids, or raise alike. *)
Lemma recalc_priority_same_dep_id_list
    (parse_date : string -> option Z) (today : Z) (py : Builtins)
    (row : Task) (deps deps' : list dep) (tasks_df : list Task) (days_window : Z) :
  dependencies row = Some deps ->
  dep_id_list py deps = dep_id_list py deps' ->
  recalc_priority parse_date today py row tasks_df days_window
    = recalc_priority parse_date today py (set_id_dependencies (id row) deps' row)
        tasks_df days_window.
Proof.
  intros Hd Heq. unfold recalc_priority. cbv zeta.
  cbn [set_id_dependencies dependencies business_impact due_date required_info
       received_info effort status].
  rewrite Hd. change (default [] (Some deps)) with deps.
  change (default [] (Some deps')) with deps'.
  rewrite !deps_open_dep_ids. unfold dep_ids. rewrite Heq. reflexivity.
Qed.

(** X5: what a string dependency entry counts for, wherever in the list
    it stands. A string that [str.isdigit] rejects is ignored: the row is
    scored, or raises, as the row without the entry. A string that
    [str.isdigit] accepts and [int] reads as [n] counts as the int [n]:
    the row is scored, or raises, as the row with [n] in its place. *)
Theorem X5_string_dependency_entries
    (parse_date : string -> option Z) (today : Z) (py : Builtins)
    (row : Task) (pre post : list dep) (s : string)
    (tasks_df : list Task) (days_window : Z) :
  dependencies row = Some (pre ++ DStr s :: post)%list ->
  (str_isdigit py s = false ->
   recalc_priority parse_date today py row tasks_df days_window
     = recalc_priority parse_date today py
         (set_id_dependencies (id row) (pre ++ post)%list row) tasks_df days_window) /\
  (forall n,
     str_isdigit py s = true -> int_of_str py s = Some n -> str_of_int py n <> None ->
     recalc_priority parse_date today py row tasks_df days_window
       = recalc_priority parse_date today py
           (set_id_dependencies (id row) (pre ++ DInt n :: post)%list row)
           tasks_df days_window).
Proof.
  intros Hd. split.
  - intros Hs. apply (recalc_priority_same_dep_id_list _ _ _ _ _ _ _ _ Hd).
    apply dep_id_list_dropped, Hs.
  - intros n Hs Hi Hn. apply (recalc_priority_same_dep_id_list _ _ _ _ _ _ _ _ Hd).
    apply dep_id_list_numeral; assumption.
Qed.

Lemma X5_string_dependency_entries_witness :
  recalc_priority IsoDate.parse Sample.today Sample.py
      (Sample.task 3 "deploy" "In Progress" None [] [] "High" 2
         [DInt 4; DStr "seven"; DInt 7]) [Sample.finished] 14
    = recalc_priority IsoDate.parse Sample.today Sample.py
        (Sample.task 3 "deploy" "In Progress" None [] [] "High" 2 [DInt 4; DInt 7])
        [Sample.finished] 14 /\
  recalc_priority IsoDate.parse Sample.today Sample.py
      (Sample.task 3 "deploy" "In Progress" None [] [] "High" 2
         [DInt 4; DStr "٠07"]) [Sample.finished] 14
    = recalc_priority IsoDate.parse Sample.today Sample.py
        (Sample.task 3 "deploy" "In Progress" None [] [] "High" 2 [DInt 4; DInt 7])
        [Sample.finished] 14.
Proof.
  split.
  - apply (proj1 (X5_string_dependency_entries IsoDate.parse Sample.today Sample.py
             (Sample.task 3 "deploy" "In Progress" None [] [] "High" 2
                [DInt 4; DStr "seven"; DInt 7])
             [DInt 4] [DInt 7] "seven" [Sample.finished] 14 eq_refl)).
    reflexivity.
  - apply (proj2 (X5_string_dependency_entries IsoDate.parse Sample.today Sample.py
             (Sample.task 3 "deploy" "In Progress" None [] [] "High" 2
                [DInt 4; DStr "٠07"])
             [DInt 4] [] "٠07" [Sample.finished] 14 eq_refl) 7);
      [reflexivity|reflexivity|discriminate].
Defined.

(** ** Information readiness, continued *)

Lemma size_list_to_set_length (l : list string) :
  size (list_to_set l : gset string) = length l -> NoDup l.
Proof.
  induction l as [|x l IH]; [intros _; constructor|].
  rewrite list_to_set_cons. simpl. intros Hsz.
  pose proof (size_set_of_le (fun y => y) l) as Hle.
  unfold set_of in Hle. rewrite list_fmap_id in Hle.
  destruct (decide (x ∈ l)) as [Hin|Hnin].
  - exfalso.
    rewrite subseteq_union_1_L in Hsz; [lia|].
    apply singleton_subseteq_l, elem_of_list_to_set, Hin.
  - rewrite size_union in Hsz by (apply disjoint_singleton_l; rewrite elem_of_list_to_set; exact Hnin).
    rewrite size_singleton in Hsz.
    apply NoDup_cons. split; [exact Hnin|]. apply IH. lia.
Qed.

Lemma quot_ge_1_inv (a b : Z) : 0 < b -> (1 <= quot a b)%Q -> b <= a.
Proof.
  intros Hb H. destruct (Z.le_gt_cases b a) as [Hle|Hlt]; [exact Hle|]. exfalso.
  assert (Hq : (quot a b < 1)%Q).
  { unfold quot. apply Qlt_shift_div_r.
    - change 0%Q with (inject_Z 0). rewrite <- Zlt_Qlt. exact Hb.
    - rewrite Qmult_1_l. rewrite <- Zlt_Qlt. exact Hlt. }
  lra.
Qed.

(** The number of matched items equals the number of required entries
    exactly when everything required is received. *)
Lemma got_eq_len_all_received (required received : list string) :
  required <> [] ->
  (set_len (set_of PyStr.lower received ∩ set_of PyStr.lower required) = len required
   <-> all_received required received).
Proof.
  intros Hne. unfold set_len, len, all_received.
  pose proof (size_set_of_le PyStr.lower required) as Hle.
  assert (Hsub : set_of PyStr.lower received ∩ set_of PyStr.lower required
                 ⊆ set_of PyStr.lower required) by apply intersection_subseteq_r.
  pose proof (subseteq_size _ _ Hsub) as Hle'.
  split.
  - intros Heq. apply Nat2Z.inj in Heq.
    split; [exact Hne|]. split.
    + apply size_list_to_set_length. rewrite length_fmap.
      unfold set_of in *. lia.
    + intros x Hx.
      assert (HX : set_of PyStr.lower received ∩ set_of PyStr.lower required
                   = set_of PyStr.lower required)
        by (apply set_subseteq_size_eq; [exact Hsub|lia]).
      assert (Hin : PyStr.lower x ∈ set_of PyStr.lower required).
      { unfold set_of. apply elem_of_list_to_set, list_elem_of_fmap. eauto. }
      rewrite <- HX in Hin. apply elem_of_intersection in Hin as [Hin _].
      unfold set_of in Hin. apply elem_of_list_to_set in Hin. exact Hin.
  - intros (_ & Hnd & Hall). f_equal.
    replace (set_of PyStr.lower received ∩ set_of PyStr.lower required)
      with (set_of PyStr.lower required).
    + apply size_set_of_NoDup, Hnd.
    + symmetry. apply set_eq. intros y. unfold set_of.
      rewrite elem_of_intersection, !elem_of_list_to_set. split; [tauto|].
      intros Hy. split; [|exact Hy].
      apply list_elem_of_fmap in Hy as (x & -> & Hx). apply Hall, Hx.
Qed.

Lemma info_ratio_quot (required received : list string) :
  required <> [] ->
  (info_ratio required received ==
     quot (set_len (set_of PyStr.lower received ∩ set_of PyStr.lower required))
          (len required))%Q.
Proof.
  intros Hne. pose proof (len_pos required Hne) as Hpos.
  pose proof (got_le_len PyStr.lower received required) as [Hg Hl].
  pose proof (quot_le_1 _ _ Hl Hpos) as Hq.
  unfold info_ratio. destruct required as [|x required]; [congruence|].
  match goal with |- (py_min 1 ?q == _)%Q =>
    destruct (py_min_case 1 q) as [[H1 H2]|[H1 H2]] end; lra.
Qed.

Lemma info_ratio_complete (required received : list string) :
  Qle_bool 1 (info_ratio required received) = true <-> all_received required received.
Proof.
  rewrite Qle_bool_iff. destruct (decide (required = [])) as [->|Hne].
  - rewrite info_ratio_nil. unfold all_received. split; [intros H; lra|].
    intros [H _]. congruence.
  - rewrite <- (got_eq_len_all_received required received Hne).
    rewrite (info_ratio_quot required received Hne).
    pose proof (len_pos required Hne) as Hpos.
    pose proof (got_le_len PyStr.lower received required) as [Hg Hl].
    split.
    + intros H. apply quot_ge_1_inv in H; [lia|exact Hpos].
    + intros ->. apply quot_ge_1; [lia|exact Hpos].
Qed.

(** X6: for a non-empty [required_info], [info_ratio] is the plain
    quotient of the matched count by [len(required)] (the [min(1.0, ...)]
    never cuts), it lies in [0,1], and it reaches 1 exactly when the
    lower-cased required entries are pairwise distinct and all among the
    lower-cased received entries. *)
Theorem X6_info_ratio_complete_iff (required received : list string) :
  (0 <= info_ratio required received <= 1)%Q /\
  (required <> [] ->
   (info_ratio required received ==
      quot (set_len (set_of PyStr.lower received ∩ set_of PyStr.lower required))
           (len required))%Q) /\
  ((1 <= info_ratio required received)%Q <-> all_received required received).
Proof.
  split; [apply info_ratio_bounds|]. split; [apply info_ratio_quot|].
  rewrite <- Qle_bool_iff. apply info_ratio_complete.
Qed.

Lemma X6_info_ratio_complete_iff_witness :
  (info_ratio ["Budget"; "plan"] ["PLAN"; "budget"; "x"] == quot 2 2)%Q /\
  (1 <= info_ratio ["Budget"; "plan"] ["PLAN"; "budget"; "x"])%Q /\
  ~ all_received ["x"; "X"] ["x"].
Proof.
  destruct (X6_info_ratio_complete_iff ["Budget"; "plan"] ["PLAN"; "budget"; "x"])
    as (_ & Hq & Hall).
  split; [exact (Hq ltac:(discriminate))|]. split.
  - apply Hall. apply (bool_decide_unpack _). vm_compute. exact I.
  - intros Hc.
    apply (proj2 (proj2 (proj2 (X6_info_ratio_complete_iff ["x"; "X"] ["x"])))) in Hc.
    vm_compute in Hc. apply Hc. reflexivity.
Defined.

(** ** Status transitions *)

(** The status computed by the last two [if]s of [recalc_priority], as a
    function of the input status, of whether [info_ratio >= 1.0] and of
    [deps_open]. *)
Lemma status_cases (status0 : string) (complete open : bool) :
  let status1 :=
    if (status0 =? "Waiting Info")%string && complete then "Backlog" else status0 in
  let st := if open && negb (done_or_blocked status1) then "Blocked" else status1 in
  (status0 = "Waiting Info" /\ complete = true /\ open = false /\ st = "Backlog") \/
  (status0 <> "Done" /\ open = true /\ st = "Blocked") \/
  (status0 = "Done" /\ st = "Done") \/
  (open = false /\ (status0 <> "Waiting Info" \/ complete = false) /\ st = status0).
Proof.
  cbv zeta. unfold done_or_blocked.
  destruct (String.eqb_spec status0 "Waiting Info") as [->|Hwi];
    destruct complete, open; simpl; try tauto;
    try (right; left; repeat split; discriminate);
    try (right; right; right; repeat split; tauto).
  - destruct (String.eqb_spec status0 "Done") as [->|Hd]; simpl; [tauto|].
    destruct (String.eqb_spec status0 "Blocked") as [->|Hb]; simpl; tauto.
  - destruct (String.eqb_spec status0 "Done") as [->|Hd]; simpl; [tauto|].
    destruct (String.eqb_spec status0 "Blocked") as [->|Hb]; simpl; tauto.
Qed.



(** X8: a returned [escalated] flag means the label is P1, the score is
    at least 80, everything required is received, and the returned status
    is not Waiting Info. *)
Theorem X8_escalated_implies_ready
    (parse_date : string -> option Z) (today : Z) (py : Builtins)
    (row : Task) (tasks_df : list Task) (days_window : Z)
    (s : Q) (l st : string) :
  recalc_priority parse_date today py row tasks_df days_window = Ok (s, l, st, true) ->
  l = "P1" /\ (80 <= s)%Q /\
  all_received (default [] (required_info row)) (default [] (received_info row)) /\
  st <> "Waiting Info".
Proof.
  intros H. recalc_components H o Ho u Hu Hs Hl Hst He. clear Hs Hu.
  symmetry in He. apply andb_true_iff in He as [Hp1 Hc].
  apply String.eqb_eq in Hp1.
  split; [exact Hp1|]. split; [apply _label_from_score_P1; congruence|].
  split; [apply info_ratio_complete, Hc|].
  cbv zeta in Hst. rewrite Hc in Hst.
  pose proof (status_cases (default "Backlog" (status row)) true o) as Hcases.
  cbv zeta in Hcases. rewrite <- Hst in Hcases.
  destruct Hcases as [(_ & _ & _ & ->)|[(_ & _ & ->)|[(_ & ->)|(_ & [Hn|Hn] & ->)]]];
    try discriminate. exact Hn.
Qed.

Lemma X8_escalated_implies_ready_witness :
  all_received ["x"; "y"] ["x"; "y"] /\ "Backlog" <> "Waiting Info".
Proof.
  assert (H : recalc_priority IsoDate.parse Sample.today Sample.py Sample.fully_ready [] 14
              = Ok (100%Q, "P1", "Backlog", true)) by (vm_compute; reflexivity).
  destruct (X8_escalated_implies_ready IsoDate.parse Sample.today Sample.py Sample.fully_ready
              [] 14 100%Q "P1" "Backlog" H) as (_ & _ & Hall & Hst).
  split; [exact Hall|exact Hst].
Defined.

(** X9: a task whose input status is Blocked is returned Blocked and pays
    the 25 points, also when none of its dependencies is open: the engine
    never unblocks a task by itself. *)
Theorem X9_blocked_is_kept
    (parse_date : string -> option Z) (today : Z) (py : Builtins)
    (row : Task) (tasks_df : list Task) (days_window : Z)
    (s : Q) (l st : string) (e : bool) :
  status row = Some "Blocked" ->
  recalc_priority parse_date today py row tasks_df days_window = Ok (s, l, st, e) ->
  st = "Blocked" /\
  exists u,
    _urgency_points parse_date today (due_date row) days_window = Ok u /\
    s = py_max 0 (py_min 100
          (inject_Z (_impact_points (default "Medium" (business_impact row)))
           + u
           + _info_points (default [] (required_info row))
                          (default [] (received_info row))
           + _effort_penalty (default 3%Z (effort row))
           + - 25))%Q.
Proof.
  intros Hb H. recalc_components H o Ho u Hu Hs Hl Hst He. clear Hl He.
  rewrite Hb in Hst, Hs. split.
  - rewrite Hst. simpl. rewrite andb_false_r. reflexivity.
  - exists u. split; [exact Hu|]. exact Hs.
Qed.

Lemma X9_blocked_is_kept_witness :
  exists s l e,
    recalc_priority IsoDate.parse Sample.today Sample.py
      (Sample.task 9 "wait" "Blocked" None [] [] "Critical" 1 []) [] 14
      = Ok (s, l, "Blocked", e) /\ (s == 15)%Q.
Proof.
  pose (row := Sample.task 9 "wait" "Blocked" None [] [] "Critical" 1 []).
  destruct (recalc_priority_returns IsoDate.parse Sample.today Sample.py row [] 14
              false ltac:(lia) eq_refl) as [[[[s l] st] e] H].
  destruct (X9_blocked_is_kept IsoDate.parse Sample.today Sample.py row [] 14 s l st e eq_refl H)
    as (-> & u & Hu & Hs).
  exists s, l, e. split; [exact H|].
  injection Hu as <-. rewrite Hs. vm_compute. reflexivity.
Defined.

(** X10: the returned status is the input status except for two
    transitions: Waiting Info to Backlog, only when everything required
    is received, and any status other than Done to Blocked, only when a
    dependency is open. A Done task stays Done. *)
Theorem X10_status_transitions
    (parse_date : string -> option Z) (today : Z) (py : Builtins)
    (row : Task) (tasks_df : list Task) (days_window : Z)
    (s : Q) (l st : string) (e : bool) :
  recalc_priority parse_date today py row tasks_df days_window = Ok (s, l, st, e) ->
  let status0 := default "Backlog" (status row) in
  (st = status0 \/
   (status0 = "Waiting Info" /\ st = "Backlog" /\
    all_received (default [] (required_info row)) (default [] (received_info row))) \/
   (status0 <> "Done" /\ st = "Blocked" /\
    exists ids d,
      dep_ids py (default [] (dependencies row)) = Ok ids /\
      d ∈ ids /\ open_dep tasks_df d)) /\
  (status0 = "Done" -> st = "Done").
Proof.
  intros H status0. recalc_components H o Ho u Hu Hs Hl Hst He. clear Hs Hl He Hu.
  apply deps_open_Ok in Ho as (ids & Hids & ->).
  pose proof (status_cases status0
                (Qle_bool 1 (info_ratio (default [] (required_info row))
                                        (default [] (received_info row))))
                (any_open ids tasks_df)) as Hcases.
  cbv zeta in Hcases, Hst. fold status0 in Hst. rewrite <- Hst in Hcases.
  rewrite info_ratio_complete in Hcases.
  destruct Hcases as [(H0 & Hc & _ & ->)|[(Hd & Ho & ->)|[(H0 & ->)|(_ & _ & ->)]]].
  - split; [right; left; tauto|]. intros Hx. congruence.
  - apply any_open_true in Ho as (d & Hdin & Hopen).
    split; [right; right; split; [exact Hd|]; split; [reflexivity|];
            exists ids, d; tauto|].
    intros Hx. congruence.
  - split; [left; congruence|]. reflexivity.
  - split; [left; reflexivity|]. tauto.
Qed.

Lemma X10_status_transitions_witness :
  exists s l st e,
    recalc_priority IsoDate.parse Sample.today Sample.py Sample.finished [] 14 = Ok (s, l, st, e) /\
    st = "Done".
Proof.
  destruct (recalc_priority_returns IsoDate.parse Sample.today Sample.py Sample.finished [] 14
              true ltac:(lia) eq_refl) as [[[[s l] st] e] H].
  exists s, l, st, e. split; [exact H|].
  apply (X10_status_transitions IsoDate.parse Sample.today Sample.py Sample.finished [] 14
           s l st e H). reflexivity.
Defined.

(** ** Two runs of the engine compared *)

Lemma recalc_priority_assemble
    (parse_date : string -> option Z) (today : Z) (py : Builtins)
    (row : Task) (tasks_df : list Task) (days_window : Z) :
  recalc_priority parse_date today py row tasks_df days_window =
    open ← deps_open py (default [] (dependencies row)) tasks_df;
    u ← _urgency_points parse_date today (due_date row) days_window;
    Ok (assemble (_impact_points (default "Medium" (business_impact row))) u
          (_info_points (default [] (required_info row))
                        (default [] (received_info row)))
          (_effort_penalty (default 3 (effort row)))
          (default "Backlog" (status row))
          (info_ratio (default [] (required_info row)) (default [] (received_info row)))
          open).
Proof. reflexivity. Qed.

Lemma clamp_mono (x y : Q) :
  (x <= y)%Q -> (py_max 0 (py_min 100 x) <= py_max 0 (py_min 100 y))%Q.
Proof.
  intros Hxy.
  destruct (py_max_case 0 (py_min 100 x)) as [[H1 H2]|[H1 H2]];
    destruct (py_min_case 100 x) as [[H3 H4]|[H3 H4]];
    destruct (py_max_case 0 (py_min 100 y)) as [[H5 H6]|[H5 H6]];
    destruct (py_min_case 100 y) as [[H7 H8]|[H7 H8]]; lra.
Qed.

Lemma _label_from_score_mono (s s' : Q) :
  (s <= s')%Q -> label_le (_label_from_score s') (_label_from_score s).
Proof.
  intros Hss. unfold _label_from_score, label_le.
  destruct (Qle_bool 80 s') eqn:A'; destruct (Qle_bool 80 s) eqn:A;
    destruct (Qle_bool 60 s') eqn:B'; destruct (Qle_bool 60 s) eqn:B;
    destruct (Qle_bool 40 s') eqn:C'; destruct (Qle_bool 40 s) eqn:C;
    try (right; reflexivity); try (left; reflexivity);
    exfalso;
    repeat match goal with
           | H : Qle_bool _ _ = true |- _ => apply Qle_bool_iff in H
           | H : Qle_bool ?a ?b = false |- _ =>
               assert (~ (a <= b)%Q) by (rewrite <- Qle_bool_iff; congruence); clear H
           end; lra.
Qed.

(** The score of [assemble] grows with the sum of its four first terms. *)
Lemma assemble_score_mono (base base' : Z) (u u' info info' eff eff' : Q)
    (status0 : string) (ratio ratio' : Q) (open : bool) :
  (inject_Z base + u + info + eff <= inject_Z base' + u' + info' + eff')%Q ->
  let '(s, l, _, _) := assemble base u info eff status0 ratio open in
  let '(s', l', _, _) := assemble base' u' info' eff' status0 ratio' open in
  (s <= s')%Q /\ label_le l' l.
Proof.
  intros Hle. unfold assemble. cbv zeta.
  assert (Hs : (py_max 0 (py_min 100 (inject_Z base + u + info + eff
                                      + _blocked_penalty status0 open))
                <= py_max 0 (py_min 100 (inject_Z base' + u' + info' + eff'
                                         + _blocked_penalty status0 open)))%Q)
    by (apply clamp_mono; lra).
  split; [exact Hs|]. apply _label_from_score_mono, Hs.
Qed.

(** Scoring the status that [assemble] returns gives the same tuple. *)
Lemma assemble_fixed (base : Z) (u info eff : Q) (status0 : string)
    (ratio : Q) (open : bool) :
  assemble base u info eff
    (assemble base u info eff status0 ratio open).1.2 ratio open
  = assemble base u info eff status0 ratio open.
Proof.
  unfold assemble. cbv zeta. cbn [fst snd].
  pose proof (status_cases status0 (Qle_bool 1 ratio) open) as Hcases.
  cbv zeta in Hcases.
  set (st := if open && negb (done_or_blocked
                                (if (status0 =? "Waiting Info")%string
                                    && Qle_bool 1 ratio
                                 then "Backlog" else status0))
             then "Blocked"
             else if (status0 =? "Waiting Info")%string && Qle_bool 1 ratio
                  then "Backlog" else status0) in *.
  destruct Hcases as [(-> & Hc & -> & Hst)|[(_ & -> & Hst)|[(-> & Hst)|(_ & _ & Hst)]]];
    rewrite Hst.
  - rewrite Hc. reflexivity.
  - unfold _blocked_penalty. rewrite !orb_true_r. reflexivity.
  - subst st. rewrite Hst. reflexivity.
  - subst st. rewrite Hst. reflexivity.
Qed.


(** Two rows with the same due date, status and dependencies, the second
    with no smaller sum of impact, information and effort terms: the
    second scores at least as much and its label is at least as good. *)
Lemma recalc_priority_compare
    (parse_date : string -> option Z) (today : Z) (py : Builtins)
    (r1 r2 : Task) (tasks_df : list Task) (days_window : Z)
    (s : Q) (l st : string) (e : bool) :
  due_date r1 = due_date r2 -> status r1 = status r2 ->
  dependencies r1 = dependencies r2 ->
  (inject_Z (_impact_points (default "Medium" (business_impact r1)))
   + _info_points (default [] (required_info r1)) (default [] (received_info r1))
   + _effort_penalty (default 3%Z (effort r1))
   <= inject_Z (_impact_points (default "Medium" (business_impact r2)))
      + _info_points (default [] (required_info r2)) (default [] (received_info r2))
      + _effort_penalty (default 3%Z (effort r2)))%Q ->
  recalc_priority parse_date today py r1 tasks_df days_window = Ok (s, l, st, e) ->
  exists s' l' st' e',
    recalc_priority parse_date today py r2 tasks_df days_window = Ok (s', l', st', e') /\
    (s <= s')%Q /\ label_le l' l.
Proof.
  intros Hdue Hst Hdeps Hle. rewrite !recalc_priority_assemble.
  rewrite <- Hdue, <- Hst, <- Hdeps.
  destruct (deps_open py (default [] (dependencies r1)) tasks_df) as [o|x];
    [|discriminate].
  cbn [mbind result_bind].
  destruct (_urgency_points parse_date today (due_date r1) days_window) as [u|x];
    [|discriminate].
  cbn [mbind result_bind]. intros H. apply Ok_inv in H.
  match goal with
  | |- exists s' l' st' e', Ok (assemble ?b' u ?i' ?f' ?s0 ?r' ?o) = _ /\ _ =>
      pose proof (assemble_score_mono
                    (_impact_points (default "Medium" (business_impact r1))) b' u u
                    (_info_points (default [] (required_info r1))
                                  (default [] (received_info r1))) i'
                    (_effort_penalty (default 3 (effort r1))) f' s0
                    (info_ratio (default [] (required_info r1))
                                (default [] (received_info r1))) r' o) as Hm;
      destruct (assemble b' u i' f' s0 r' o) as [[[s' l'] st'] e']
  end.
  rewrite H in Hm. exists s', l', st', e'. split; [reflexivity|]. apply Hm. lra.
Qed.

Lemma set_of_same_elements (f : string -> string) (l l' : list string) :
  (forall x, x ∈ l <-> x ∈ l') -> set_of f l = set_of f l'.
Proof.
  intros H. unfold set_of. apply set_eq. intros y.
  rewrite !elem_of_list_to_set, !list_elem_of_fmap.
  split; intros (x & -> & Hx); exists x; (split; [reflexivity|]); apply H, Hx.
Qed.

Lemma set_of_subseteq (f : string -> string) (l l' : list string) :
  (forall x, x ∈ l -> x ∈ l') -> set_of f l ⊆ set_of f l'.
Proof.
  intros H y. unfold set_of.
  rewrite !elem_of_list_to_set, !list_elem_of_fmap.
  intros (x & -> & Hx). exists x. split; [reflexivity|]. apply H, Hx.
Qed.

Lemma _info_points_mono (required received received' : list string) :
  (forall x, x ∈ received -> x ∈ received') ->
  (_info_points required received <= _info_points required received')%Q.
Proof.
  intros Hsub. unfold _info_points. destruct required as [|r required]; [lra|].
  set (req := r :: required).
  assert (Hpos : 0 < Z.max 1 (len req)) by lia.
  assert (Hg : set_len (set_of strip_lower received ∩ set_of strip_lower req)
               <= set_len (set_of strip_lower received' ∩ set_of strip_lower req)).
  { unfold set_len. apply Nat2Z.inj_le, subseteq_size.
    pose proof (set_of_subseteq strip_lower _ _ Hsub). set_solver. }
  pose proof (quot_mono _ _ _ Hg Hpos). lra.
Qed.

Lemma _effort_penalty_mono (e e' : Z) :
  e <= e' -> (_effort_penalty e' <= _effort_penalty e)%Q.
Proof.
  intros H. unfold _effort_penalty.
  assert (Hz : Z.max 1 (Z.min 8 e) - 1 <= Z.max 1 (Z.min 8 e') - 1) by lia.
  rewrite Zle_Qle in Hz. lra.
Qed.

Lemma recalc_priority_write_back
    (parse_date : string -> option Z) (today : Z) (py : Builtins)
    (row : Task) (tasks_df : list Task) (days_window : Z)
    (out : Q * string * string * bool) :
  recalc_priority parse_date today py row tasks_df days_window = Ok out ->
  recalc_priority parse_date today py (write_back row out) tasks_df days_window = Ok out.
Proof.
  rewrite !recalc_priority_assemble.
  destruct out as [[[s l] st] e].
  cbn [write_back set_status set_priority status due_date required_info received_info
       business_impact effort dependencies].
  destruct (deps_open py (default [] (dependencies row)) tasks_df) as [o|x];
    [|discriminate].
  cbn [mbind result_bind].
  destruct (_urgency_points parse_date today (due_date row) days_window) as [u|x];
    [|discriminate].
  cbn [mbind result_bind]. intros H. apply Ok_inv in H. f_equal.
  change (default "Backlog" (Some st)) with st.
  replace st with
    (assemble (_impact_points (default "Medium" (business_impact row))) u
       (_info_points (default [] (required_info row)) (default [] (received_info row)))
       (_effort_penalty (default 3 (effort row)))
       (default "Backlog" (status row))
       (info_ratio (default [] (required_info row)) (default [] (received_info row)))
       o).1.2 at 1
    by (rewrite H; reflexivity).
  rewrite assemble_fixed. exact H.
Qed.

(** X11: writing the returned score, label and status back into the row
    and scoring it again returns the same tuple, and writing that tuple
    back again leaves the row as it is: a second run changes nothing. *)
Theorem X11_write_back_fixed_point
    (parse_date : string -> option Z) (today : Z) (py : Builtins)
    (row : Task) (tasks_df : list Task) (days_window : Z)
    (out : Q * string * string * bool) :
  recalc_priority parse_date today py row tasks_df days_window = Ok out ->
  recalc_priority parse_date today py (write_back row out) tasks_df days_window = Ok out /\
  write_back (write_back row out) out = write_back row out.
Proof.
  intros H. split.
  - apply recalc_priority_write_back, H.
  - destruct out as [[[s l] st] e]. reflexivity.
Qed.

Lemma X11_write_back_fixed_point_witness :
  recalc_priority IsoDate.parse Sample.today Sample.py
    (write_back Sample.gated ((7 # 2)%Q, "P4", "Blocked", false))
    [Sample.dep_not_done] 14
  = Ok ((7 # 2)%Q, "P4", "Blocked", false).
Proof.
  apply (X11_write_back_fixed_point IsoDate.parse Sample.today Sample.py Sample.gated
           [Sample.dep_not_done] 14 ((7 # 2)%Q, "P4", "Blocked", false)).
  vm_compute. reflexivity.
Defined.

Lemma recalc_priority_received_elements
    (parse_date : string -> option Z) (today : Z) (py : Builtins)
    (row : Task) (tasks_df : list Task) (days_window : Z) (received' : list string) :
  (forall x, x ∈ received' <-> x ∈ default [] (received_info row)) ->
  recalc_priority parse_date today py (set_received_info received' row) tasks_df days_window
    = recalc_priority parse_date today py row tasks_df days_window.
Proof.
  intros Hsame. rewrite !recalc_priority_assemble.
  cbn [set_received_info status due_date required_info received_info
       business_impact effort dependencies].
  change (default [] (Some received')) with received'.
  assert (Hp : _info_points (default [] (required_info row)) received'
               = _info_points (default [] (required_info row))
                              (default [] (received_info row))).
  { unfold _info_points. destruct (default [] (required_info row)); [reflexivity|].
    rewrite (set_of_same_elements strip_lower _ _ Hsame). reflexivity. }
  assert (Hr : info_ratio (default [] (required_info row)) received'
               = info_ratio (default [] (required_info row))
                            (default [] (received_info row))).
  { unfold info_ratio. destruct (default [] (required_info row)); [reflexivity|].
    rewrite (set_of_same_elements PyStr.lower _ _ Hsame). reflexivity. }
  rewrite Hp, Hr. reflexivity.
Qed.

(** X12: the result depends on [received_info] only through the set of
    its entries: reordering the received list or repeating an entry (as
    the webhook does when it rebuilds the list from a set) changes
    nothing. *)
Theorem X12_received_order_and_repeats
    (parse_date : string -> option Z) (today : Z) (py : Builtins)
    (row : Task) (tasks_df : list Task) (days_window : Z) (received' : list string) :
  (forall x, x ∈ received' <-> x ∈ default [] (received_info row)) ->
  recalc_priority parse_date today py (set_received_info received' row) tasks_df days_window
    = recalc_priority parse_date today py row tasks_df days_window.
Proof. apply recalc_priority_received_elements. Qed.

Lemma X12_received_order_and_repeats_witness :
  recalc_priority IsoDate.parse Sample.today Sample.py
    (set_received_info ["y"; "x"; "y"] Sample.fully_ready) [] 14
  = recalc_priority IsoDate.parse Sample.today Sample.py Sample.fully_ready [] 14.
Proof.
  apply (X12_received_order_and_repeats IsoDate.parse Sample.today Sample.py Sample.fully_ready
           [] 14 ["y"; "x"; "y"]).
  intros x. change (default [] (received_info Sample.fully_ready)) with ["x"; "y"].
  rewrite !elem_of_cons, !elem_of_nil. tauto.
Defined.

(** X13: receiving more never lowers the score: when every received
    entry of the row is kept, the new score is at least the old one and
    the new label is at least as good. *)
Theorem X13_more_received_never_lowers
    (parse_date : string -> option Z) (today : Z) (py : Builtins)
    (row : Task) (tasks_df : list Task) (days_window : Z) (received' : list string)
    (s : Q) (l st : string) (e : bool) :
  (forall x, x ∈ default [] (received_info row) -> x ∈ received') ->
  recalc_priority parse_date today py row tasks_df days_window = Ok (s, l, st, e) ->
  exists s' l' st' e',
    recalc_priority parse_date today py (set_received_info received' row)
      tasks_df days_window = Ok (s', l', st', e') /\
    (s <= s')%Q /\ label_le l' l.
Proof.
  intros Hsub H.
  apply (recalc_priority_compare parse_date today py row (set_received_info received' row)
           tasks_df days_window s l st e); try reflexivity; [|exact H].
  cbn [set_received_info required_info received_info business_impact effort].
  change (default [] (Some received')) with received'.
  pose proof (_info_points_mono (default [] (required_info row)) _ _ Hsub). lra.
Qed.

Lemma X13_more_received_never_lowers_witness :
  exists s' l' st' e',
    recalc_priority IsoDate.parse Sample.today Sample.py
      (set_received_info ["x"; "Y "] Sample.half_ready) [] 14 = Ok (s', l', st', e') /\
    (348 # 4 <= s')%Q /\ label_le l' "P1".
Proof.
  apply (X13_more_received_never_lowers IsoDate.parse Sample.today Sample.py Sample.half_ready
           [] 14 ["x"; "Y "] (348 # 4)%Q "P1" "Backlog" false).
  - intros x. change (default [] (received_info Sample.half_ready)) with ["x"].
    rewrite !elem_of_cons, !elem_of_nil. tauto.
  - vm_compute. reflexivity.
Defined.

(** X14: the impact table is increasing from Low to Critical, any other
    impact string counts as Medium, and raising the impact points of a row
    never lowers its score nor worsens its label. *)
Theorem X14_impact_tiers
    (parse_date : string -> option Z) (today : Z) (py : Builtins)
    (row : Task) (tasks_df : list Task) (days_window : Z) (impact' : string)
    (s : Q) (l st : string) (e : bool) :
  (_impact_points "Low" < _impact_points "Medium" /\
   _impact_points "Medium" < _impact_points "High" /\
   _impact_points "High" < _impact_points "Critical") /\
  (impact' <> "Low" -> impact' <> "High" -> impact' <> "Critical" ->
   _impact_points impact' = _impact_points "Medium") /\
  (_impact_points (default "Medium" (business_impact row)) <= _impact_points impact' ->
   recalc_priority parse_date today py row tasks_df days_window = Ok (s, l, st, e) ->
   exists s' l' st' e',
     recalc_priority parse_date today py (set_business_impact impact' row)
       tasks_df days_window = Ok (s', l', st', e') /\
     (s <= s')%Q /\ label_le l' l).
Proof.
  split; [repeat split|]. split.
  - intros H1 H3 H4. unfold _impact_points, mapping.
    destruct (decide (impact' = "Medium")) as [->|H2]; [reflexivity|].
    rewrite !lookup_insert_ne by congruence.
    rewrite lookup_singleton_ne by congruence. reflexivity.
  - intros Hle H.
    apply (recalc_priority_compare parse_date today py row
             (set_business_impact impact' row) tasks_df days_window s l st e);
      try reflexivity; [|exact H].
    cbn [set_business_impact required_info received_info business_impact effort].
    change (default "Medium" (Some impact')) with impact'.
    rewrite Zle_Qle in Hle. lra.
Qed.

Lemma X14_impact_tiers_witness :
  _impact_points "urgent" = _impact_points "Medium" /\
  exists s' l' st' e',
    recalc_priority IsoDate.parse Sample.today Sample.py
      (set_business_impact "Critical" Sample.gated) [] 14 = Ok (s', l', st', e') /\
    (7 # 2 <= s')%Q /\ label_le l' "P4".
Proof.
  destruct (X14_impact_tiers IsoDate.parse Sample.today Sample.py Sample.gated [] 14 "urgent"
              (7 # 2)%Q "P4" "Blocked" false) as (_ & Hdef & _).
  split; [apply Hdef; discriminate|].
  apply (X14_impact_tiers IsoDate.parse Sample.today Sample.py Sample.gated [] 14 "Critical"
           (7 # 2)%Q "P4" "Blocked" false).
  - vm_compute. discriminate.
  - vm_compute. reflexivity.
Defined.

(** X15: raising the effort of a row never raises its score nor improves
    its label, whatever the two efforts are (in or out of the range
    [1,8]). *)
Theorem X15_effort_never_helps
    (parse_date : string -> option Z) (today : Z) (py : Builtins)
    (row : Task) (tasks_df : list Task) (days_window : Z) (effort' : Z)
    (s' : Q) (l' st' : string) (e' : bool) :
  default 3 (effort row) <= effort' ->
  recalc_priority parse_date today py (set_effort effort' row) tasks_df days_window
    = Ok (s', l', st', e') ->
  exists s l st e,
    recalc_priority parse_date today py row tasks_df days_window = Ok (s, l, st, e) /\
    (s' <= s)%Q /\ label_le l l'.
Proof.
  intros Hle H.
  apply (recalc_priority_compare parse_date today py (set_effort effort' row) row
           tasks_df days_window s' l' st' e'); try reflexivity; [|exact H].
  cbn [set_effort required_info received_info business_impact effort].
  change (default 3 (Some effort')) with effort'.
  pose proof (_effort_penalty_mono _ _ Hle). lra.
Qed.

Lemma X15_effort_never_helps_witness :
  exists s l st e,
    recalc_priority IsoDate.parse Sample.today Sample.py Sample.half_ready [] 14 = Ok (s, l, st, e) /\
    (318 # 4 <= s)%Q /\ label_le l "P2".
Proof.
  apply (X15_effort_never_helps IsoDate.parse Sample.today Sample.py Sample.half_ready [] 14 9
           (318 # 4)%Q "P2" "Backlog" false).
  - vm_compute. discriminate.
  - vm_compute. reflexivity.
Defined.

Lemma set_of_strip_lower_trimmed (l : list string) :
  (forall x, x ∈ l -> PyStr.strip x = x) ->
  set_of strip_lower l = set_of PyStr.lower l.
Proof.
  intros H. unfold set_of. f_equal. apply list_eq_Forall2, Forall2_fmap, Forall_Forall2_diag.
  apply Forall_forall. intros x Hx. unfold strip_lower. rewrite (H x Hx). reflexivity.
Qed.

Lemma _info_points_trimmed (required received : list string) :
  (forall x, x ∈ (required ++ received)%list -> PyStr.strip x = x) ->
  (_info_points required received == 40 * info_ratio required received)%Q.
Proof.
  intros Htrim.
  destruct (decide (required = [])) as [->|Hne]; [reflexivity|].
  rewrite (info_ratio_quot required received Hne).
  pose proof (len_pos required Hne) as Hpos.
  unfold _info_points. destruct required as [|r required]; [congruence|].
  rewrite Z.max_r by lia.
  rewrite !set_of_strip_lower_trimmed
    by (intros x Hx; apply Htrim, elem_of_app; auto).
  reflexivity.
Qed.

(** X16: when no entry of [required_info] and [received_info] has
    leading or trailing white space (every caller trims them), the
    information points are 40 times [info_ratio], so the full 40 points
    are given exactly when [info_ratio] reaches 1. *)
Theorem X16_trimmed_entries_agree (required received : list string) :
  (forall x, x ∈ (required ++ received)%list -> PyStr.strip x = x) ->
  (_info_points required received == 40 * info_ratio required received)%Q /\
  ((_info_points required received == 40)%Q <->
   (1 <= info_ratio required received)%Q).
Proof.
  intros Htrim. pose proof (_info_points_trimmed required received Htrim) as Heq.
  split; [exact Heq|].
  pose proof (info_ratio_bounds required received). split; intros H1; lra.
Qed.

Lemma X16_trimmed_entries_agree_witness :
  (_info_points ["a"; "b"] ["B"; "c"] == 40 * info_ratio ["a"; "b"] ["B"; "c"])%Q.
Proof.
  apply (X16_trimmed_entries_agree ["a"; "b"] ["B"; "c"]).
  apply Forall_forall. apply (bool_decide_unpack _). vm_compute. exact I.
Defined.

(** X17: the label is one of P1, P2, P3, P4, and a higher score never
    gives a worse label. *)
Theorem X17_label_monotone (s s' : Q) :
  (_label_from_score s = "P1" \/ _label_from_score s = "P2" \/
   _label_from_score s = "P3" \/ _label_from_score s = "P4") /\
  ((s <= s')%Q -> label_le (_label_from_score s') (_label_from_score s)).
Proof.
  split; [|apply _label_from_score_mono].
  unfold _label_from_score.
  destruct (Qle_bool 80 s); [tauto|].
  destruct (Qle_bool 60 s); [tauto|].
  destruct (Qle_bool 40 s); tauto.
Qed.

Lemma X17_label_monotone_witness :
  label_le (_label_from_score 80) (_label_from_score (159 # 2)).
Proof.
  apply (X17_label_monotone (159 # 2) 80). vm_compute. discriminate.
Defined.

(** ** Top five, continued *)

(** X18: no row left out of [top5] outranks a row it returns: the frame
    splits into at most five kept rows, which [top5] returns in order,
    and dropped rows, and every kept row is ranked before every dropped
    one. *)
Theorem X18_top5_keeps_the_best (df : list Task) :
  exists kept dropped,
    (kept ++ dropped)%list ≡ₚ df /\
    top5 df = select_columns <$> kept /\
    (length kept <= 5)%nat /\
    (dropped <> [] -> length kept = 5%nat) /\
    forall a b, a ∈ kept -> b ∈ dropped -> ranked_before a b.
Proof.
  exists (take 5 (sort_values df)), (drop 5 (sort_values df)).
  assert (Hs : StronglySorted ranked_before (sort_values df)).
  { apply StronglySorted_ranked_before, StronglySorted_merge_sort; apply _. }
  split; [rewrite take_drop; apply merge_sort_Permutation|].
  split; [destruct df; reflexivity|].
  split; [rewrite length_take; lia|].
  split.
  - intros Hd. rewrite length_take.
    destruct (decide (5 <= length (sort_values df))%nat) as [?|Hn]; [lia|].
    exfalso. apply Hd. apply drop_ge. lia.
  - intros a b Ha Hb. rewrite <- (take_drop 5 (sort_values df)) in Hs.
    exact (StronglySorted_app_1_elem_of _ _ _ _ _ Hs Ha Hb).
Qed.

Lemma X18_top5_keeps_the_best_witness :
  exists kept dropped,
    (kept ++ dropped)%list ≡ₚ [Sample.scored 1 "P2" 50; Sample.scored 2 "P1" 90] /\
    top5 [Sample.scored 1 "P2" 50; Sample.scored 2 "P1" 90] = select_columns <$> kept /\
    (length kept <= 5)%nat.
Proof.
  destruct (X18_top5_keeps_the_best [Sample.scored 1 "P2" 50; Sample.scored 2 "P1" 90])
    as (kept & dropped & Hp & Ht & Hl & _).
  exists kept, dropped. split; [exact Hp|]. split; [exact Ht|exact Hl].
Defined.

(** ** [build_task] *)

Lemma _info_points_nothing_received (required : list string) :
  (_info_points required [] == 0)%Q.
Proof.
  unfold _info_points. destruct required as [|x l]; [reflexivity|].
  replace (set_of strip_lower [] ∩ set_of strip_lower (x :: l)) with (∅ : gset string)
    by (unfold set_of; set_solver).
  unfold set_len. rewrite size_empty. unfold quot, Qdiv.
  change (inject_Z (Z.of_nat 0)) with 0%Q. rewrite Qmult_0_l, Qmult_0_r. reflexivity.
Qed.

Lemma info_ratio_nothing_received (required : list string) :
  Qle_bool 1 (info_ratio required []) = false.
Proof.
  apply not_true_iff_false. rewrite info_ratio_complete.
  intros (Hne & _ & Hall). destruct required as [|x l]; [congruence|].
  specialize (Hall x ltac:(apply elem_of_cons; left; reflexivity)).
  inversion Hall.
Qed.

(** What [build_task] returns, through the row it scores. *)
Lemma build_task_inv
    (parse_date : string -> option Z) (today : Z) (py : Builtins) (df : list Task) (payload p : Task) :
  build_task parse_date today py df payload = Ok p ->
  exists s l st e,
    recalc_priority parse_date today py
      (set_id_dependencies (-1) []
         (set_status (Some (default "Backlog" (status payload))) payload))
      df default_days_window = Ok (s, l, st, e) /\
    p = set_status (Some st)
          (set_priority s l
             (set_status (Some (default "Backlog" (status payload))) payload)).
Proof.
  unfold build_task. cbv zeta.
  destruct (recalc_priority parse_date today py _ df default_days_window)
    as [[[[s l] st] e]|x]; [|discriminate].
  cbn [mbind result_bind mret result_ret write_back]. intros H. apply Ok_inv in H.
  exists s, l, st, e. split; [reflexivity|]. symmetry. exact H.
Qed.

Lemma build_task_returns
    (parse_date : string -> option Z) (today : Z) (py : Builtins) (df : list Task) (payload : Task) :
  exists p, build_task parse_date today py df payload = Ok p.
Proof.
  unfold build_task. cbv zeta.
  destruct (recalc_priority_returns parse_date today py
              (set_id_dependencies (-1) []
                 (set_status (Some (default "Backlog" (status payload))) payload))
              df default_days_window false ltac:(discriminate) eq_refl) as [out ->].
  eexists. reflexivity.
Qed.

(** X19: [build_task] always returns a payload, the same whatever the
    stored tasks are (it scores the payload with an empty dependency
    list), keeps the payload's own id, title and dependencies, and
    returns the status Blocked only for a payload that came in Blocked. *)
Theorem X19_build_task_ignores_stored_tasks
    (parse_date : string -> option Z) (today : Z) (py : Builtins) (df : list Task) (payload : Task) :
  build_task parse_date today py df payload = build_task parse_date today py [] payload /\
  exists p,
    build_task parse_date today py df payload = Ok p /\
    id p = id payload /\ title p = title payload /\
    dependencies p = dependencies payload /\
    (status p = Some "Blocked" -> status payload = Some "Blocked").
Proof.
  split; [reflexivity|].
  set (row := set_id_dependencies (-1) []
                (set_status (Some (default "Backlog" (status payload))) payload)).
  destruct (recalc_priority_returns parse_date today py row df default_days_window
              false ltac:(discriminate) eq_refl) as [[[[s l] st] e] H].
  exists (set_status (Some st)
            (set_priority s l
               (set_status (Some (default "Backlog" (status payload))) payload))).
  split; [unfold build_task; cbv zeta; fold row; rewrite H; reflexivity|].
  split; [reflexivity|]. split; [reflexivity|]. split; [reflexivity|].
  cbn [set_status status]. intros Hb. apply Some_inj in Hb.
  pose proof (recalc_priority_status parse_date today py row df default_days_window
                false s l st e eq_refl H) as Hst.
  pose proof (status_cases (default "Backlog" (status payload))
                (Qle_bool 1 (info_ratio (default [] (required_info row))
                                        (default [] (received_info row))))
                false) as Hcases.
  cbv zeta in Hst, Hcases.
  change (default "Backlog" (status row)) with (default "Backlog" (status payload)) in Hst.
  rewrite <- Hst, Hb in Hcases.
  destruct Hcases as [(_ & _ & _ & Hx)|[(_ & Hx & _)|[(Hx & Hy)|(_ & _ & Hx)]]];
    try discriminate.
  destruct (status payload) as [st0|]; simpl in Hx; [congruence|discriminate].
Qed.

Lemma X19_build_task_ignores_stored_tasks_witness :
  build_task IsoDate.parse Sample.today Sample.py [Sample.dep_not_done] Sample.gated
    = build_task IsoDate.parse Sample.today Sample.py [] Sample.gated /\
  exists p,
    build_task IsoDate.parse Sample.today Sample.py [Sample.dep_not_done] Sample.gated = Ok p /\
    dependencies p = Some [DInt 7] /\ status p <> Some "Blocked".
Proof.
  destruct (X19_build_task_ignores_stored_tasks IsoDate.parse Sample.today Sample.py
              [Sample.dep_not_done] Sample.gated) as (Heq & p & Hp & _ & _ & Hd & Hb).
  split; [exact Heq|]. exists p. split; [exact Hp|]. split; [exact Hd|].
  intros Hs. specialize (Hb Hs). discriminate Hb.
Defined.

(** X20: for a payload with nothing received, as the two command parsers
    build it, [build_task] gives a score of at most 70 and never the
    label P1, and leaves the status as it came (Backlog when absent). *)
Theorem X20_build_task_nothing_received
    (parse_date : string -> option Z) (today : Z) (py : Builtins) (df : list Task) (payload p : Task) :
  default [] (received_info payload) = [] ->
  build_task parse_date today py df payload = Ok p ->
  (priority_score p <= 70)%Q /\ priority_label p <> "P1" /\
  status p = Some (default "Backlog" (status payload)).
Proof.
  intros Hrec H. apply build_task_inv in H as (s & l & st & e & H & ->).
  cbn [set_status set_priority priority_score priority_label status].
  recalc_components H o Ho u Hu Hs Hl Hst He. clear He H.
  cbn [set_id_dependencies set_status status due_date required_info received_info
       business_impact effort dependencies] in Hs, Hst, Hu, Ho.
  apply Ok_inv in Ho. subst o.
  rewrite Hrec in Hs, Hst.
  change (default "Backlog" (Some (default "Backlog" (status payload))))
    with (default "Backlog" (status payload)) in Hs, Hst.
  cbv zeta in Hst. rewrite info_ratio_nothing_received, andb_false_r in Hst.
  change (false && _) with false in Hst. cbv iota in Hst.
  assert (Hle : (s <= 70)%Q).
  { apply _urgency_points_bounds in Hu.
    pose proof (_impact_points_bounds (default "Medium" (business_impact payload)))
      as [_ Hb].
    rewrite Zle_Qle in Hb. change (inject_Z 40) with 40%Q in Hb.
    pose proof (_info_points_nothing_received (default [] (required_info payload))).
    pose proof (_effort_penalty_bounds (default 3 (effort payload))).
    pose proof (_blocked_penalty_bounds (default "Backlog" (status payload)) false).
    rewrite Hs.
    match goal with |- (py_max 0 (py_min 100 ?x) <= _)%Q =>
      destruct (py_max_case 0 (py_min 100 x)) as [[? ?]|[? ?]];
      destruct (py_min_case 100 x) as [[? ?]|[? ?]]
    end; lra. }
  split; [exact Hle|]. split.
  - rewrite Hl, _label_from_score_P1. lra.
  - rewrite Hst. reflexivity.
Qed.

Lemma X20_build_task_nothing_received_witness :
  exists p,
    build_task IsoDate.parse Sample.today Sample.py []
      (Sample.task 0 "new" "Waiting Info" (Some "2026-11-03") ["x"] [] "Critical" 1 [])
      = Ok p /\
    (priority_score p <= 70)%Q /\ priority_label p <> "P1" /\
    status p = Some "Waiting Info".
Proof.
  pose (payload := Sample.task 0 "new" "Waiting Info" (Some "2026-11-03") ["x"] []
                     "Critical" 1 []).
  destruct (build_task_returns IsoDate.parse Sample.today Sample.py [] payload) as [p Hp].
  exists p. split; [exact Hp|].
  apply (X20_build_task_nothing_received IsoDate.parse Sample.today Sample.py [] payload p
           eq_refl Hp).
Defined.

(** ** Top five of a consistent frame *)

Lemma StronglySorted_among {A} (R R' : relation A) (P : A -> Prop) (l : list A) :
  (forall a b, P a -> P b -> R a b -> R' a b) ->
  Forall P l -> StronglySorted R l -> StronglySorted R' l.
Proof.
  intros HR HP Hs. induction Hs as [|a l Hs IH Hf]; [constructor|].
  apply Forall_cons in HP as [Ha HP]. constructor; [apply IH, HP|].
  apply Forall_forall. intros b Hb.
  apply HR; [exact Ha| |].
  - exact (proj1 (Forall_forall _ _) HP b Hb).
  - exact (proj1 (Forall_forall _ _) Hf b Hb).
Qed.

Lemma ranked_before_score_ge (a b : Task) :
  consistent a -> consistent b -> ranked_before a b -> score_ge a b.
Proof.
  unfold consistent, ranked_before, score_ge. intros Ha Hb [Hlt|[_ Hle]]; [|exact Hle].
  destruct (Qlt_le_dec (priority_score a) (priority_score b)) as [Hab|Hba]; [|exact Hba].
  exfalso. rewrite Ha, Hb in Hlt.
  destruct (_label_from_score_mono _ _ (Qlt_le_weak _ _ Hab)) as [Hlt'|Heq].
  - exact (string_lt_irrefl _ (string_lt_trans _ _ _ Hlt Hlt')).
  - rewrite Heq in Hlt. exact (string_lt_irrefl _ Hlt).
Qed.

(** X21: when the stored label of every row is the label of its stored
    score, as after any write-back, [top5] returns the rows with the
    highest scores in decreasing order of score: no dropped row has a
    higher score than a kept one. It returns no row only for an empty
    frame. *)
Theorem X21_top5_of_consistent_frame (df : list Task) :
  (top5 df = [] <-> df = []) /\
  ((forall r, r ∈ df -> consistent r) ->
   exists kept dropped,
     (kept ++ dropped)%list ≡ₚ df /\
     top5 df = select_columns <$> kept /\
     StronglySorted score_ge kept /\
     forall a b, a ∈ kept -> b ∈ dropped -> score_ge a b).
Proof.
  assert (Hperm : sort_values df ≡ₚ df) by apply merge_sort_Permutation.
  split.
  - split; [|intros ->; reflexivity].
    destruct df as [|r df]; [reflexivity|]. intros H. exfalso.
    assert (Hlen : length (top5 (r :: df)) = 0%nat) by (rewrite H; reflexivity).
    unfold top5 in Hlen. rewrite length_fmap, length_take in Hlen.
    rewrite (Permutation_length Hperm) in Hlen. simpl in Hlen. lia.
  - intros Hc.
    assert (Hall : Forall consistent (sort_values df)).
    { apply Forall_forall. intros r Hr. apply Hc. rewrite <- Hperm. exact Hr. }
    assert (Hs : StronglySorted score_ge (sort_values df)).
    { apply (StronglySorted_among ranked_before score_ge consistent);
        [apply ranked_before_score_ge|exact Hall|].
      apply StronglySorted_ranked_before, StronglySorted_merge_sort; apply _. }
    exists (take 5 (sort_values df)), (drop 5 (sort_values df)).
    rewrite <- (take_drop 5 (sort_values df)) in Hs.
    split; [rewrite take_drop; exact Hperm|].
    split; [destruct df; reflexivity|].
    split; [exact (StronglySorted_app_1_l _ _ _ Hs)|].
    intros a b Ha Hb. exact (StronglySorted_app_1_elem_of _ _ _ _ _ Hs Ha Hb).
Qed.

Lemma X21_top5_of_consistent_frame_witness :
  exists kept dropped,
    (kept ++ dropped)%list ≡ₚ [Sample.scored 1 "P3" 50; Sample.scored 2 "P1" 90] /\
    top5 [Sample.scored 1 "P3" 50; Sample.scored 2 "P1" 90] = select_columns <$> kept /\
    StronglySorted score_ge kept.
Proof.
  destruct (X21_top5_of_consistent_frame
              [Sample.scored 1 "P3" 50; Sample.scored 2 "P1" 90]) as [_ H].
  destruct H as (kept & dropped & Hp & Ht & Hs & _).
  - intros r Hr. apply elem_of_cons in Hr as [->|Hr]; [reflexivity|].
    apply list_elem_of_singleton in Hr as ->. reflexivity.
  - exists kept, dropped. split; [exact Hp|]. split; [exact Ht|exact Hs].
Defined.

(** ** Registering received information *)

Lemma list_of_set_enumerates : enumerates PySample.list_of_set.
Proof.
  intros l item. unfold PySample.list_of_set. split; [apply NoDup_remove_dups|].
  intros x. rewrite elem_of_remove_dups, elem_of_reverse, elem_of_app,
    elem_of_union, elem_of_list_to_set, list_elem_of_singleton, elem_of_singleton.
  reflexivity.
Qed.

(** The stored tasks count only through which ids are open. *)
Lemma recalc_priority_same_open
    (parse_date : string -> option Z) (today : Z) (py : Builtins)
    (row : Task) (t1 t2 : list Task) (days_window : Z) :
  (forall d, open_dep t1 d <-> open_dep t2 d) ->
  recalc_priority parse_date today py row t1 days_window
    = recalc_priority parse_date today py row t2 days_window.
Proof.
  intros Hsame. unfold recalc_priority. rewrite !deps_open_dep_ids.
  destruct (dep_ids py (default [] (dependencies row))) as [ids|x]; [|reflexivity].
  cbn [mbind result_bind].
  replace (any_open ids t2) with (any_open ids t1); [reflexivity|].
  apply eq_true_iff_eq. rewrite !any_open_true.
  split; intros (d & Hd & Ho); exists d; (split; [exact Hd|]); apply Hsame, Ho.
Qed.

(** X22: the received-information command, whatever the order in which
    the set of received items is listed. It returns a row whenever no
    dependency entry of the stored row is unreadable. The returned row
    has the id of the stored row and is Done exactly when the stored row
    was; its received list holds the item and the entries held before,
    each once; the new score is at least the score of the row before;
    and registering the same item again, against the same stored tasks
    or any in which the same ids are open, returns the same row, but for
    the order of its received list, which may change. *)
Theorem X22_register_received
    (parse_date : string -> option Z) (today : Z) (py : Builtins)
    (order order' : list string -> string -> list string)
    (df : list Task) (item : string) (r : Task) :
  enumerates order -> enumerates order' ->
  ((forall d, d ∈ default [] (dependencies r) -> unreadable py d = false) ->
   exists r', register_received parse_date today py order df item r = Ok r') /\
  (forall r',
     register_received parse_date today py order df item r = Ok r' ->
     id r' = id r /\
     (status r' = Some "Done" <-> status r = Some "Done") /\
     (forall x, x ∈ default [] (received_info r') <->
                x = item \/ x ∈ default [] (received_info r)) /\
     NoDup (default [] (received_info r')) /\
     (exists again,
        again = order' (default [] (received_info r')) item /\
        NoDup again /\
        (forall x, x ∈ again <-> x ∈ default [] (received_info r')) /\
        forall df',
          (forall d, open_dep df d <-> open_dep df' d) ->
          register_received parse_date today py order' df' item r'
            = Ok (set_received_info again r')) /\
     (forall s l st e,
        recalc_priority parse_date today py r df default_days_window = Ok (s, l, st, e) ->
        (s <= priority_score r')%Q)).
Proof.
  intros Henum Henum'.
  set (L := order (default [] (received_info r)) item).
  set (r1 := set_received_info L r).
  assert (Hmem : forall x, x ∈ L <-> x = item \/ x ∈ default [] (received_info r)).
  { intros x. unfold L.
    rewrite (proj2 (Henum (default [] (received_info r)) item) x).
    rewrite elem_of_union, elem_of_list_to_set, elem_of_singleton. tauto. }
  split.
  - intros Hread.
    destruct (deps_open_cases py (default [] (dependencies r)) df)
      as [[[open Ho] _]|[_ (d & Hd & Hu)]];
      [|rewrite (Hread d Hd) in Hu; discriminate].
    destruct (recalc_priority_returns parse_date today py r1 df default_days_window
                open ltac:(discriminate) Ho) as [out H1].
    exists (write_back r1 out).
    unfold register_received. cbv zeta. fold L. fold r1. rewrite H1. reflexivity.
  - intros r'. unfold register_received. cbv zeta. fold L. fold r1.
    destruct (recalc_priority parse_date today py r1 df default_days_window)
      as [[[[s1 l1] st1] e1]|x] eqn:H1; [|discriminate].
    cbn [mbind result_bind mret result_ret]. intros Hr'. apply Ok_inv in Hr'. subst r'.
    change (default [] (received_info (write_back r1 (s1, l1, st1, e1)))) with L.
    split; [reflexivity|]. split.
    { change (status (write_back r1 (s1, l1, st1, e1))) with (Some st1).
      pose proof H1 as H1'.
      recalc_components H1' o Ho u Hu Hs Hl Hst He. clear Hs Hl He Hu H1'.
      change (status r1) with (status r) in Hst.
      pose proof (status_cases (default "Backlog" (status r))
                    (Qle_bool 1 (info_ratio (default [] (required_info r1))
                                            (default [] (received_info r1))))
                    o) as Hcases.
      cbv zeta in Hcases, Hst. rewrite <- Hst in Hcases. clear Hst.
      assert (Hdone : status r = Some "Done" <-> default "Backlog" (status r) = "Done").
      { destruct (status r) as [st0|]; cbn [default from_option Datatypes.id].
        - split; [intros [= ->]; reflexivity|intros ->; reflexivity].
        - split; discriminate. }
      rewrite Hdone.
      destruct Hcases as [(H0 & _ & _ & ->)|[(H0 & _ & ->)|[(H0 & ->)|(_ & _ & ->)]]].
      - rewrite H0. split; [intros [=]|discriminate].
      - split; [intros [=]|intros Hx; contradiction].
      - split; [intros _; exact H0|reflexivity].
      - split; [intros [= ->]; reflexivity|intros ->; reflexivity]. }
    split; [exact Hmem|]. split; [exact (proj1 (Henum _ item))|]. split.
    + set (L2 := order' L item).
      assert (Hmem2 : forall x, x ∈ L2 <-> x ∈ L).
      { intros x. unfold L2. rewrite (proj2 (Henum' L item) x).
        rewrite elem_of_union, elem_of_list_to_set, elem_of_singleton.
        split; [intros [Hx| ->]; [exact Hx|apply Hmem; left; reflexivity]|tauto]. }
      exists L2. split; [reflexivity|]. split; [exact (proj1 (Henum' L item))|].
      split; [exact Hmem2|]. intros df' Hdf.
      rewrite <- (recalc_priority_same_open parse_date today py _ df df'
                    default_days_window Hdf).
      rewrite (recalc_priority_received_elements parse_date today py
                 (write_back r1 (s1, l1, st1, e1)) df default_days_window L2 Hmem2).
      rewrite (recalc_priority_write_back _ _ _ _ _ _ _ H1). reflexivity.
    + intros s l st e H.
      destruct (recalc_priority_compare parse_date today py r r1 df default_days_window
                  s l st e) as (s' & l' & st' & e' & H' & Hle & _);
        try reflexivity; [|exact H|].
      * unfold r1.
        cbn [set_received_info required_info received_info business_impact effort].
        change (default [] (Some L)) with L.
        pose proof (_info_points_mono (default [] (required_info r))
                      (default [] (received_info r)) L
                      ltac:(intros x Hx; apply Hmem; right; exact Hx)).
        lra.
      * rewrite H1 in H'. apply Ok_tuple_inv in H' as (-> & _). exact Hle.
Qed.

Lemma X22_register_received_witness :
  exists r',
    register_received IsoDate.parse Sample.today Sample.py PySample.list_of_set
      [] "y" Sample.half_ready = Ok r' /\
    received_info r' = Some ["y"; "x"] /\
    register_received IsoDate.parse Sample.today Sample.py PySample.list_of_set
      [] "y" r' = Ok (set_received_info ["x"; "y"] r') /\
    (348 # 4 <= priority_score r')%Q.
Proof.
  destruct (X22_register_received IsoDate.parse Sample.today Sample.py
              PySample.list_of_set PySample.list_of_set [] "y" Sample.half_ready
              list_of_set_enumerates list_of_set_enumerates) as [Hret Hprop].
  destruct Hret as [r' Hr'].
  { intros d Hd. inversion Hd. }
  exists r'. split; [exact Hr'|].
  destruct (Hprop r' Hr') as (_ & _ & _ & _ & (again & Heq & _ & _ & Hagain) & Hle).
  assert (Hrec : received_info r' = Some ["y"; "x"]).
  { vm_compute in Hr'. apply Ok_inv in Hr'. subst r'. reflexivity. }
  split; [exact Hrec|]. split.
  - rewrite (Hagain [] ltac:(tauto)), Heq, Hrec. reflexivity.
  - apply (Hle (348 # 4)%Q "P1" "Backlog" false). vm_compute. reflexivity.
Defined.

Lemma find_task_None (df : list Task) (task_id : Z) :
  find_task df task_id = None <-> forall r, r ∈ df -> id r <> task_id.
Proof.
  unfold find_task. induction df as [|r df IH]; simpl.
  - split; [intros _ r Hr; inversion Hr|reflexivity].
  - destruct (Z.eqb_spec (id r) task_id) as [Heq|Hne]; simpl.
    + split; [discriminate|]. intros H. exfalso.
      apply (H r); [apply elem_of_cons; left; reflexivity|exact Heq].
    + rewrite IH. split.
      * intros H r' Hr'. apply elem_of_cons in Hr' as [->|Hr']; [exact Hne|apply H, Hr'].
      * intros H r' Hr'. apply H, elem_of_cons. right. exact Hr'.
Qed.

Lemma find_task_Some (df : list Task) (task_id : Z) (r : Task) :
  find_task df task_id = Some r -> r ∈ df /\ id r = task_id.
Proof.
  unfold find_task. induction df as [|r0 df IH]; simpl; [discriminate|].
  destruct (Z.eqb_spec (id r0) task_id) as [Heq|Hne]; simpl.
  - intros [= <-]. split; [apply elem_of_cons; left; reflexivity|exact Heq].
  - intros H. apply IH in H as [Hin Hid]. split; [apply elem_of_cons; right; exact Hin|].
    exact Hid.
Qed.

(** X23: the received-information command answers "not found" exactly
    when no stored task has the given id, and otherwise it registers the
    item on a stored task with that id and nothing else is scored. *)
Theorem X23_received_command_lookup
    (parse_date : string -> option Z) (today : Z) (py : Builtins)
    (order : list string -> string -> list string)
    (df : list Task) (item : string) (task_id : Z) :
  (received_command parse_date today py order df item task_id = None <->
   forall r, r ∈ df -> id r <> task_id) /\
  (forall res, received_command parse_date today py order df item task_id = Some res ->
   exists r, r ∈ df /\ id r = task_id /\
             res = register_received parse_date today py order df item r).
Proof.
  unfold received_command. split.
  - rewrite <- find_task_None. destruct (find_task df task_id); split; congruence.
  - intros res. destruct (find_task df task_id) as [r|] eqn:Hf; [|discriminate].
    intros [= <-]. apply find_task_Some in Hf as [Hin Hid].
    exists r. split; [exact Hin|]. split; [exact Hid|reflexivity].
Qed.

Lemma X23_received_command_lookup_witness :
  received_command IsoDate.parse Sample.today Sample.py PySample.list_of_set
    [Sample.dep_not_done] "x" 8 = None.
Proof.
  apply (X23_received_command_lookup IsoDate.parse Sample.today Sample.py
           PySample.list_of_set [Sample.dep_not_done] "x" 8).
  intros r Hr. apply list_elem_of_singleton in Hr as ->. discriminate.
Defined.

(** ** Comma-separated fields *)

Lemma split_no_sep (sep : ascii) (x : string) :
  occurs sep x = false -> split sep x = [x].
Proof.
  induction x as [|c x IH]; [reflexivity|]. simpl.
  destruct (Ascii.eqb c sep); [discriminate|]. simpl. intros H.
  rewrite (IH H). reflexivity.
Qed.

Lemma split_app_sep (sep : ascii) (x rest : string) :
  occurs sep x = false ->
  split sep (x ++ String sep rest)%string = x :: split sep rest.
Proof.
  induction x as [|c x IH]; simpl.
  - intros _. rewrite Ascii.eqb_refl. reflexivity.
  - destruct (Ascii.eqb c sep); [discriminate|]. simpl. intros H.
    rewrite (IH H). reflexivity.
Qed.

Lemma split_join (sep : ascii) (l : list string) :
  l <> [] -> (forall x, x ∈ l -> occurs sep x = false) ->
  split sep (join sep l) = l.
Proof.
  induction l as [|x l IH]; [congruence|]. intros _ Hl.
  assert (Hx : occurs sep x = false) by (apply Hl, elem_of_cons; left; reflexivity).
  destruct l as [|y l].
  - simpl. apply split_no_sep, Hx.
  - change (join sep (x :: y :: l)) with (x ++ String sep (join sep (y :: l)))%string.
    rewrite (split_app_sep sep x _ Hx). f_equal.
    apply IH; [discriminate|]. intros z Hz. apply Hl, elem_of_cons. right. exact Hz.
Qed.

(** X24: a list shown in the form as [",".join(l)] is read back
    unchanged when its entries are non-empty, hold no comma and have no
    leading or trailing white space; the empty list is read back from
    the empty field. *)
Theorem X24_comma_list_round_trip (l : list string) :
  (forall x, x ∈ l -> x <> "" /\ occurs comma x = false /\ PyStr.strip x = x) ->
  comma_list (join comma l) = l.
Proof.
  intros Hl. destruct (decide (l = [])) as [->|Hne]; [reflexivity|].
  unfold comma_list. rewrite split_join; [|exact Hne|intros x Hx; apply Hl, Hx].
  clear Hne. induction l as [|x l IH]; [reflexivity|].
  destruct (Hl x ltac:(apply elem_of_cons; left; reflexivity)) as (Hx & _ & Hs).
  simpl. rewrite Hs.
  destruct (String.eqb_spec x "") as [?|_]; [congruence|]. simpl.
  rewrite Hs. f_equal. apply IH. intros z Hz. apply Hl, elem_of_cons. right. exact Hz.
Qed.

Lemma X24_comma_list_round_trip_witness :
  comma_list (join comma ["budget"; "site plan"]) = ["budget"; "site plan"].
Proof.
  apply (X24_comma_list_round_trip ["budget"; "site plan"]).
  apply Forall_forall. repeat constructor; discriminate.
Defined.

(** ** What the comma-separated reading produces *)

Lemma string_app_cons (x : ascii) (a b : string) :
  (String x a ++ b)%string = String x (a ++ b)%string.
Proof. reflexivity. Qed.

Lemma string_app_assoc (a b c : string) : ((a ++ b) ++ c = a ++ (b ++ c))%string.
Proof.
  induction a as [|x a IH]; [reflexivity|].
  rewrite !string_app_cons, IH. reflexivity.
Qed.

Lemma string_rev_onto_app (acc s : string) :
  PyStr.string_rev_onto acc s = (PyStr.string_rev s ++ acc)%string.
Proof.
  unfold PyStr.string_rev. revert acc.
  induction s as [|c s IH]; intros acc; [reflexivity|].
  cbn [PyStr.string_rev_onto].
  rewrite (IH (String c acc)), (IH (String c "")), string_app_assoc. reflexivity.
Qed.

Lemma string_rev_cons (c : ascii) (s : string) :
  PyStr.string_rev (String c s) = (PyStr.string_rev s ++ String c "")%string.
Proof. unfold PyStr.string_rev at 1. cbn [PyStr.string_rev_onto]. apply string_rev_onto_app. Qed.

Lemma string_rev_snoc (c : ascii) (s : string) :
  PyStr.string_rev (s ++ String c "") = String c (PyStr.string_rev s).
Proof.
  induction s as [|x s IH]; [reflexivity|].
  rewrite string_app_cons, !string_rev_cons, IH. reflexivity.
Qed.

Lemma lstrip_snoc (c : ascii) (s : string) :
  PyStr.lstrip (s ++ String c "") =
    if (PyStr.lstrip s =? "")%string
    then (if PyStr.is_space c then "" else String c "")
    else (PyStr.lstrip s ++ String c "")%string.
Proof.
  induction s as [|x s IH].
  - change (PyStr.lstrip (String c "") =
            if PyStr.is_space c then "" else String c "").
    cbn [PyStr.lstrip]. destruct (PyStr.is_space c); reflexivity.
  - rewrite string_app_cons. cbn [PyStr.lstrip].
    destruct (PyStr.is_space x); [exact IH|reflexivity].
Qed.

Lemma string_rev_eq_nil (s : string) : PyStr.string_rev s = "" -> s = "".
Proof.
  destruct s as [|c s]; [reflexivity|]. rewrite string_rev_cons.
  destruct (PyStr.string_rev s); discriminate.
Qed.

(** [rstrip], read from the left. *)
Lemma rstrip_cons (c : ascii) (s : string) :
  PyStr.rstrip (String c s) =
    if (PyStr.rstrip s =? "")%string
    then (if PyStr.is_space c then "" else String c "")
    else String c (PyStr.rstrip s).
Proof.
  unfold PyStr.rstrip. rewrite string_rev_cons, lstrip_snoc.
  destruct (String.eqb_spec (PyStr.lstrip (PyStr.string_rev s)) "") as [He|Hne].
  - rewrite He. change (PyStr.string_rev "") with "". simpl.
    destruct (PyStr.is_space c); reflexivity.
  - destruct (String.eqb_spec (PyStr.string_rev (PyStr.lstrip (PyStr.string_rev s))) "")
      as [He|_]; [apply string_rev_eq_nil in He; congruence|].
    apply string_rev_snoc.
Qed.

Lemma rstrip_idemp (s : string) : PyStr.rstrip (PyStr.rstrip s) = PyStr.rstrip s.
Proof.
  induction s as [|c s IH]; [reflexivity|]. rewrite rstrip_cons.
  destruct (String.eqb_spec (PyStr.rstrip s) "") as [He|Hne].
  - destruct (PyStr.is_space c) eqn:Hc; [reflexivity|].
    rewrite rstrip_cons. change (PyStr.rstrip "") with "". simpl. rewrite Hc. reflexivity.
  - rewrite rstrip_cons, IH.
    destruct (String.eqb_spec (PyStr.rstrip s) "") as [?|_]; [congruence|reflexivity].
Qed.

Lemma lstrip_head (s : string) :
  PyStr.lstrip s = "" \/
  exists c t, PyStr.lstrip s = String c t /\ PyStr.is_space c = false.
Proof.
  induction s as [|c s IH]; simpl; [left; reflexivity|].
  destruct (PyStr.is_space c) eqn:Hc; [exact IH|]. right. exists c, s. split; tauto.
Qed.

Lemma strip_idemp (s : string) : PyStr.strip (PyStr.strip s) = PyStr.strip s.
Proof.
  unfold PyStr.strip. destruct (lstrip_head s) as [->|(c & t & -> & Hc)]; [reflexivity|].
  assert (Hl : PyStr.lstrip (PyStr.rstrip (String c t)) = PyStr.rstrip (String c t)).
  { rewrite rstrip_cons, Hc. destruct (_ =? _)%string; simpl; rewrite Hc; reflexivity. }
  rewrite Hl. apply rstrip_idemp.
Qed.

Lemma comma_list_entries (v x : string) :
  x ∈ comma_list v -> x <> "" /\ PyStr.strip x = x.
Proof.
  unfold comma_list. intros Hx. apply list_elem_of_fmap in Hx as (y & -> & Hy).
  apply list_elem_of_In, filter_In in Hy as [_ Hy].
  apply negb_true_iff, String.eqb_neq in Hy. split; [exact Hy|apply strip_idemp].
Qed.

(** X25: every entry read from a comma-separated field is non-empty and
    has no leading or trailing white space; so for lists read that way
    the information points are 40 times [info_ratio], the full 40 points
    going with a ratio of 1. *)
Theorem X25_comma_list_entries_trimmed (v w : string) :
  (forall x, x ∈ comma_list v -> x <> "" /\ PyStr.strip x = x) /\
  (_info_points (comma_list v) (comma_list w)
   == 40 * info_ratio (comma_list v) (comma_list w))%Q.
Proof.
  split; [intros x; apply comma_list_entries|].
  apply _info_points_trimmed. intros x Hx. apply elem_of_app in Hx as [Hx|Hx].
  - exact (proj2 (comma_list_entries v x Hx)).
  - exact (proj2 (comma_list_entries w x Hx)).
Qed.

Lemma X25_comma_list_entries_trimmed_witness :
  comma_list " budget ,, site plan , " = ["budget"; "site plan"] /\
  "budget" <> "" /\ PyStr.strip "budget" = "budget".
Proof.
  split; [reflexivity|].
  apply (proj1 (X25_comma_list_entries_trimmed " budget ,, site plan , " "")).
  apply elem_of_cons. left. reflexivity.
Defined.

(** ** Fallbacks *)

(** X26: the fallbacks of [recalc_priority]. When [days_window] is not 0
    and no dependency entry is unreadable, a tuple is returned for every
    row and every task collection, whose score is the clamped sum of the
    five terms. An absent, empty or unparseable due date contributes 0
    urgency points, an effort outside [1,8] contributes the penalty of
    the clamped effort, an empty [required_info] or [received_info]
    contributes 0 information points, and a kept dependency id with no
    matching row in [tasks_df] makes the dependencies open. *)
Theorem X26_fallbacks
    (parse_date : string -> option Z) (today : Z) (py : Builtins)
    (row : Task) (tasks_df : list Task) (days_window : Z) :
  days_window <> 0 ->
  (forall d, d ∈ default [] (dependencies row) -> unreadable py d = false) ->
  (exists open u l st e,
     deps_open py (default [] (dependencies row)) tasks_df = Ok open /\
     _urgency_points parse_date today (due_date row) days_window = Ok u /\
     recalc_priority parse_date today py row tasks_df days_window =
       Ok (py_max 0 (py_min 100
             (inject_Z (_impact_points (default "Medium" (business_impact row)))
              + u
              + _info_points (default [] (required_info row))
                             (default [] (received_info row))
              + _effort_penalty (default 3%Z (effort row))
              + _blocked_penalty (default "Backlog" (status row)) open))%Q,
           l, st, e)) /\
  (_urgency_points parse_date today None days_window = Ok 0%Q /\
   _urgency_points parse_date today (Some "") days_window = Ok 0%Q /\
   forall s, parse_date s = None ->
             _urgency_points parse_date today (Some s) days_window = Ok 0%Q) /\
  (forall effort,
     _effort_penalty effort = _effort_penalty (Z.max 1 (Z.min 8 effort)) /\
     (effort < 1 -> _effort_penalty effort = _effort_penalty 1) /\
     (8 < effort -> _effort_penalty effort = _effort_penalty 8)) /\
  (forall l, _info_points [] l = 0%Q /\ (_info_points l [] == 0)%Q) /\
  (forall ids d,
     dep_ids py (default [] (dependencies row)) = Ok ids -> d ∈ ids ->
     (forall r, r ∈ tasks_df -> id r <> d) ->
     deps_open py (default [] (dependencies row)) tasks_df = Ok true).
Proof.
  intros Hw Hread. split; [|split; [|split; [|split]]].
  - destruct (deps_open_cases py (default [] (dependencies row)) tasks_df)
      as [[[open Ho] _]|[_ (d & Hd & Hu)]];
      [|rewrite (Hread d Hd) in Hu; discriminate].
    destruct (recalc_priority_returns parse_date today py row tasks_df days_window
                open Hw Ho) as [[[[s l] st] e] H].
    destruct (recalc_priority_score parse_date today py row tasks_df days_window
                open s l st e Ho H) as (u & Hu & Hs).
    exists open, u, l, st, e. split; [exact Ho|]. split; [exact Hu|].
    rewrite H, Hs. reflexivity.
  - split; [reflexivity|]. split; [reflexivity|].
    intros s Hs. apply _urgency_points_unparsed, Hs.
  - intros effort. unfold _effort_penalty. split; [|split].
    + f_equal. f_equal. lia.
    + intros H. f_equal. f_equal. lia.
    + intros H. f_equal. f_equal. lia.
  - intros l. split; [reflexivity|]. apply _info_points_nothing_received.
  - intros ids d Hids Hd Hno.
    rewrite (deps_open_of_ids py _ tasks_df ids Hids). f_equal.
    apply any_open_true. exists d. split; [exact Hd|].
    intros r Hr Hid. exfalso. exact (Hno r Hr Hid).
Qed.

Lemma X26_fallbacks_witness :
  (exists l st e,
     recalc_priority IsoDate.parse Sample.today Sample.py Sample.partial
       [Sample.dep_not_done] 14 =
       Ok (py_max 0 (py_min 100 (15 + 0 + 0 + _effort_penalty 8 + - 25))%Q, l, st, e)) /\
  _urgency_points IsoDate.parse Sample.today (Some "soon") 14 = Ok 0%Q /\
  _effort_penalty 100 = _effort_penalty 8 /\
  deps_open Sample.py [DInt 99] [Sample.dep_not_done] = Ok true.
Proof.
  destruct (X26_fallbacks IsoDate.parse Sample.today Sample.py Sample.partial
              [Sample.dep_not_done] 14)
    as ((open & u & l & st & e & Ho & Hu & H) & (_ & _ & Hdue) & Heff & _ & Hdep);
    [lia| |].
  { intros d Hd. apply list_elem_of_singleton in Hd as ->. reflexivity. }
  assert (Hopen : deps_open Sample.py [DInt 99] [Sample.dep_not_done] = Ok true).
  { apply (Hdep (list_to_set [99]) 99 eq_refl).
    - apply elem_of_list_to_set, list_elem_of_singleton. reflexivity.
    - intros r Hr. apply list_elem_of_singleton in Hr as ->. discriminate. }
  split; [|split; [|split]].
  - exists l, st, e. rewrite H.
    change (due_date Sample.partial) with (Some "soon") in Hu.
    rewrite (Hdue "soon" eq_refl) in Hu. apply Ok_inv in Hu. subst u.
    change (default [] (dependencies Sample.partial)) with [DInt 99] in Ho.
    rewrite Hopen in Ho. apply Ok_inv in Ho. subst open. reflexivity.
  - apply Hdue. reflexivity.
  - apply (Heff 100). lia.
  - exact Hopen.
Defined.
